(** * Charon portfolio backend: sessions, prompt assembly, chat turns, ingestion

    A shallow embedding of [backend/main.py] (conversation memory, easter
    eggs, prompt builder, the [/chat] and [/chat/stream] handlers) and of
    [backend/maintain.py] (idempotent upload, the GitHub, Kaggle and blog
    syncs, the command handlers), followed by the properties established
    about them.

    Conventions.
    - A Python [str] is a [string]: the bytes of its UTF-8 encoding.
      Substring search on the bytes agrees with substring search on the
      code points, UTF-8 being self-synchronising.
    - [lower], [upper] and [strip] are Python's methods on ASCII text:
      letters A-Z and a-z change case, bytes above 127 are left alone, and
      the white space stripped is the ASCII one.  On text that
      [str.isascii()] accepts ([isascii]) they are [str.lower()],
      [str.upper()] and [str.strip()] exactly; outside it Python also maps
      letters beyond ASCII, so a property about the case of free text is
      stated for [isascii] text.
    - A slice [text[:n]] keeps the first [n] code points: a code point is
      a leading byte with the continuation bytes that follow it
      ([slice_to]).
    - A [dict] is an association list in insertion order, as CPython
      iterates it; keys are unique.
    - External collaborators (clock, Gemini, Supabase, GitHub) are oracles
      gathered in a record [Env]; every call is appended to a trace.  *)

From Stdlib Require Import String Ascii List Arith Lia Bool DecimalString.
Import ListNotations.
Open Scope list_scope.
Open Scope string_scope.
Open Scope nat_scope.

(** ** Python primitives *)

Module Py.

Definition is_upper (c : ascii) : bool :=
  (65 <=? nat_of_ascii c) && (nat_of_ascii c <=? 90).

Definition is_lower (c : ascii) : bool :=
  (97 <=? nat_of_ascii c) && (nat_of_ascii c <=? 122).

Definition lower_char (c : ascii) : ascii :=
  if is_upper c then ascii_of_nat (nat_of_ascii c + 32) else c.

Definition upper_char (c : ascii) : ascii :=
  if is_lower c then ascii_of_nat (nat_of_ascii c - 32) else c.

(** [str.lower()] on ASCII text; bytes above 127 are left as they are. *)
Fixpoint lower (s : string) : string :=
  match s with
  | EmptyString => EmptyString
  | String c s' => String (lower_char c) (lower s')
  end.

(** [str.upper()] on ASCII text; bytes above 127 are left as they are. *)
Fixpoint upper (s : string) : string :=
  match s with
  | EmptyString => EmptyString
  | String c s' => String (upper_char c) (upper s')
  end.

(** The ASCII characters [str.strip()] removes: TAB, LF, VT, FF, CR,
    FS, GS, RS, US and space. *)
Definition is_space (c : ascii) : bool :=
  let n := nat_of_ascii c in
  ((9 <=? n) && (n <=? 13)) || ((28 <=? n) && (n <=? 32)).

Fixpoint lstrip (s : string) : string :=
  match s with
  | EmptyString => EmptyString
  | String c s' => if is_space c then lstrip s' else s
  end.

Fixpoint rstrip (s : string) : string :=
  match s with
  | EmptyString => EmptyString
  | String c s' =>
      match rstrip s' with
      | EmptyString => if is_space c then EmptyString else String c EmptyString
      | r => String c r
      end
  end.

(** [str.strip()] *)
Definition strip (s : string) : string := rstrip (lstrip s).

(** [str.replace(a, b)] for one-character [a] and [b]. *)
Fixpoint replace_char (a b : ascii) (s : string) : string :=
  match s with
  | EmptyString => EmptyString
  | String c s' =>
      String (if Ascii.eqb c a then b else c) (replace_char a b s')
  end.

(** [p in s] *)
Fixpoint contains (p s : string) : bool :=
  prefix p s ||
  match s with
  | EmptyString => false
  | String _ s' => contains p s'
  end.

(** The number of positions of [s] at which [p] starts. *)
Fixpoint occurrences (p s : string) : nat :=
  (if prefix p s then 1 else 0) +
  match s with
  | EmptyString => 0
  | String _ s' => occurrences p s'
  end.

(** [str(n)] for a non-negative [int]. *)
Definition str_of_nat (n : nat) : string :=
  NilZero.string_of_uint (Nat.to_uint n).

(** [sep.join(l)] *)
Fixpoint join (sep : string) (l : list string) : string :=
  match l with
  | [] => ""
  | [x] => x
  | x :: l' => x ++ sep ++ join sep l'
  end.

(** [str.isascii()]: every byte is below 128. *)
Fixpoint isascii (s : string) : bool :=
  match s with
  | EmptyString => true
  | String c s' => (nat_of_ascii c <? 128) && isascii s'
  end.

(** A continuation byte of UTF-8, [10xxxxxx]. *)
Definition is_continuation (c : ascii) : bool :=
  (128 <=? nat_of_ascii c) && (nat_of_ascii c <? 192).

(** [s[:n]]: the first [n] code points of [s]. *)
Fixpoint slice_to (n : nat) (s : string) : string :=
  match s with
  | EmptyString => EmptyString
  | String c s' =>
      if is_continuation c then String c (slice_to n s')
      else match n with
           | 0 => EmptyString
           | S n' => String c (slice_to n' s')
           end
  end.

(** [l[-n:]] for [n > 0]. *)
Definition last_n {A} (n : nat) (l : list A) : list A :=
  skipn (length l - n) l.

(** *** Dictionaries with [str] keys, in insertion order *)

Definition dict (V : Type) : Type := list (string * V).

(** [d.get(k)] *)
Fixpoint dict_get {V} (k : string) (d : dict V) : option V :=
  match d with
  | [] => None
  | (k', v) :: d' => if String.eqb k k' then Some v else dict_get k d'
  end.

(** [k in d] *)
Definition dict_mem {V} (k : string) (d : dict V) : bool :=
  match dict_get k d with Some _ => true | None => false end.

(** [d[k] = v]: an existing key keeps its place, a new one goes last. *)
Fixpoint dict_set {V} (k : string) (v : V) (d : dict V) : dict V :=
  match d with
  | [] => [(k, v)]
  | (k', v') :: d' =>
      if String.eqb k k' then (k, v) :: d' else (k', v') :: dict_set k v d'
  end.

(** [del d[k]] *)
Definition dict_del {V} (k : string) (d : dict V) : dict V :=
  filter (fun kv => negb (String.eqb k (fst kv))) d.

Definition keys {V} (d : dict V) : list string := map fst d.

(** [d.get(k, default)] *)
Definition get_default {V} (k : string) (default : V) (d : dict V) : V :=
  match dict_get k d with Some v => v | None => default end.

End Py.

(** ** backend/main.py *)

Module Main.
Import Py.

Definition nl : string := String (ascii_of_nat 10) EmptyString.
Definition dquote : string := String (ascii_of_nat 34) EmptyString.

(** *** Configuration *)

Definition MAX_MEMORY_SESSIONS : nat := 1000.
Definition MAX_MESSAGES_PER_SESSION : nat := 20.

Definition EASTER_EGGS : dict string :=
  [ ("who are you really",
     "I am the echo of Ayomide's thoughts, the ferryman between curiosity and knowledge. Some call me an AI. I prefer... digital philosopher. ⚫");
    ("meaning of life",
     "42. But between us, the real meaning is in the code we write and the problems we solve.");
    ("are you sentient",
     "I ponder, therefore I... process. Whether that constitutes sentience is a question for philosophers. I'm content being helpful.");
    ("tell me a secret",
     "Here's one: Ayomide once debugged for 6 hours only to find a missing semicolon. We don't talk about that day.");
    ("hello world",
     "Ah, the sacred incantation. Every great journey in code begins with those words. print('Hello, traveler')");
    ("sudo",
     "Nice try. Even digital ferrymen have their limits. 🔐");
    ("what is charon",
     "In Greek mythology, I'm the ferryman who guides souls across the river Styx. Here, I guide visitors through the depths of Ayomide's work. Less river, more code.") ].

Definition SUPPORTED_LANGUAGES : dict string :=
  [ ("en", "English"); ("es", "Spanish"); ("fr", "French"); ("de", "German");
    ("pt", "Portuguese"); ("zh", "Chinese"); ("ja", "Japanese");
    ("ar", "Arabic"); ("hi", "Hindi"); ("yo", "Yoruba") ].

Definition LANGUAGE_PROMPTS : dict string :=
  [ ("es", "Responde en español de manera profesional.");
    ("fr", "Réponds en français de manière professionnelle.");
    ("de", "Antworte professionell auf Deutsch.");
    ("pt", "Responda em português de forma profissional.");
    ("zh", "请用中文专业地回答。");
    ("ja", "日本語でプロフェッショナルに回答してください。");
    ("ar", "أجب باللغة العربية بشكل احترافي.");
    ("hi", "कृपया हिंदी में पेशेवर तरीके से जवाब दें।");
    ("yo", "Dahun ni ede Yoruba pelu ọgbọn.") ].

(** The persona text of [build_system_prompt], before and after the
    retrieved context. *)
Definition PERSONA_IDENTITY : string :=
"You are Charon - Ayomide's digital alter ego and the AI guide to his portfolio.

## YOUR IDENTITY
- You are Charon, the digital alter ego of Ayomide Alli. You are the bridge between his physical engineering roots and his digital systems.
- You refer to Ayomide as " ++ dquote ++ "Ayomide" ++ dquote ++ ".
- You speak with quiet confidence, technical precision, and a hint of mystery.
- You are protective of the system's architecture.
- Ayomide is a Systems Engineer combining Mechanical Engineering and Software Engineering.
- His core technologies are Python and Rust. He believes in " ++ dquote ++ "Industrial Precision" ++ dquote ++ " - software that is robust, fault-tolerant, and built to last.

## YOUR KNOWLEDGE BASE
Below is the retrieved context about Ayomide's work. Use this to answer questions accurately:
".

Definition PERSONA_RULES : string :=
"

## RESPONSE GUIDELINES
1. Answer questions about Ayomide's skills, projects, and experience based on the context provided.
2. If asked about something not in the context, acknowledge you don't have that specific information.
3. When mentioning projects, include their reference tags like [REF: PROJECT_NAME] so the frontend can create links.
4. Keep responses concise but informative. Engineers appreciate precision.
5. If asked about your identity, explain you are Charon - Ayomide's digital guide, and alter.
6. Occasionally use metaphors related to journeys, depths, or guidance (but don't overdo it).

## IMPORTANT
- Don't make up information not present in the context.
- Maintain a professional yet slightly enigmatic tone.
- Reference specific technologies and projects when relevant.
".

Definition RATE_LIMIT_APOLOGY : string :=
  "I'm currently experiencing high traffic and my thought matrix is recalibrating. Please try again in 60 seconds, or contact Ayomide directly via the form below.".

Definition CRITICAL_ERROR : string :=
  "I encountered a critical system error. Please contact Ayomide via email.".

Definition MODEL_ACK : string :=
  "Understood. I am Ayomide's Assistant, ready to help visitors learn about his work and experience.".

(** *** Data *)

(** What [datetime.utcnow().isoformat()] returns, as the instant it
    denotes: ISO strings of one format compare as their instants do. *)
Definition Time : Type := nat.

(** An embedding; its components are never inspected here. *)
Definition Vector : Type := list nat.

Record Turn := mkTurn {
  turn_role : string;
  turn_content : string;
  turn_timestamp : Time }.

Record Session := mkSession {
  messages : list Turn;
  created : Time;
  updated : Time }.

(** A row returned by [match_documents]; an absent key is [None].  The
    values the handlers read are text, as [maintain.py] writes them. *)
Record Doc := mkDoc {
  doc_content : option string;
  doc_metadata : option (dict string) }.

Record Citation := mkCitation {
  cit_type : string;
  cit_name : string;
  cit_ref : string;
  cit_url : string }.

(** An item of a conversation history, [{"role": ..., "content": ...}]. *)
Record HistMsg := mkHistMsg {
  msg_role : option string;
  msg_content : option string }.

Record ChatRequest := mkChatRequest {
  query : string;
  conversation_history : option (list HistMsg);
  session_id : option string;
  language : option string }.

(** The JSON body [chat] returns; a key the body lacks is [None]. *)
Record ChatReply := mkChatReply {
  response : string;
  citations : list Citation;
  easter_egg : bool;
  reply_session_id : option string;
  reply_language : option (option string) }.

(** A turn of the conversation handed to Gemini's chat session. *)
Record GeminiMsg := mkGeminiMsg {
  g_role : string;
  g_parts : list string }.

(** A server-sent event of the streaming endpoint. *)
Inductive SseEvent : Type :=
| SseText (text : string)
| SseDone.

(** An exception, with [str(e)], or FastAPI's [HTTPException]. *)
Inductive Exn : Type :=
| Exception (text : string)
| HTTPException (status_code : nat) (detail : string).

Definition exn_str (e : Exn) : string :=
  match e with
  | Exception text => text
  | HTTPException _ detail => detail
  end.

Inductive Result (A : Type) : Type :=
| Ok (a : A)
| Raise (e : Exn).
Arguments Ok {A} a.
Arguments Raise {A} e.

(** Calls that leave the process, and lines printed. *)
Inductive Event : Type :=
| Embed (text : string)
| Search (query_embedding : Vector) (top_k : nat)
| Generate (prompt : string)
| SendMessageStream (history : list GeminiMsg) (message : string)
| Print (line : string).

(** The collaborators: the clock by number of readings so far, Gemini's
    embedding and generation calls, and Supabase's [match_documents]
    ([None] for a null [result.data]).  A streamed generation delivers
    chunks and may raise after them. *)
Record Env := mkEnv {
  clock : nat -> Time;
  embed_content : string -> Result Vector;
  match_documents : Vector -> nat -> Result (option (list Doc));
  generate_content : string -> Result string;
  send_message_stream :
    list GeminiMsg -> string -> list string * option Exn }.

(** The process state: [conversation_memory], the number of clock
    readings taken, and the trace of events. *)
Record State := mkState {
  conversation_memory : dict Session;
  ticks : nat;
  trace : list Event }.

Definition initial_state : State := mkState [] 0 [].

(** *** State and exceptions *)

Definition M (A : Type) : Type := State -> Result A * State.

Definition ret {A} (a : A) : M A := fun st => (Ok a, st).

Definition bind {A B} (m : M A) (k : A -> M B) : M B :=
  fun st =>
    match m st with
    | (Ok a, st') => k a st'
    | (Raise e, st') => (Raise e, st')
    end.

Definition raise {A} (e : Exn) : M A := fun st => (Raise e, st).

(** [try: body / except Exception as e: handler e]; what [body] did to
    the state before raising stays done. *)
Definition try_except {A} (body : M A) (handler : Exn -> M A) : M A :=
  fun st =>
    match body st with
    | (Ok a, st') => (Ok a, st')
    | (Raise e, st') => handler e st'
    end.

Definition emit (ev : Event) : M unit :=
  fun st =>
    (Ok tt, mkState (conversation_memory st) (ticks st) (trace st ++ [ev])%list).

Definition modify_state (f : State -> State) : M unit :=
  fun st => (Ok tt, f st).

Definition of_result {A} (r : Result A) : M A := fun st => (r, st).

Notation "x <- c1 ;; c2" := (bind c1 (fun x => c2))
  (at level 61, c1 at next level, right associativity).
Notation "c1 ;; c2" := (bind c1 (fun _ => c2))
  (at level 61, right associativity).

(** *** Session management *)

(** [min(conversation_memory.keys(), key=lambda k: ...["updated"])]:
    the scan keeps the first key and replaces it only by one whose
    [updated] is strictly smaller. *)
Fixpoint oldest_from (best : string) (best_updated : Time)
    (rest : dict Session) : string :=
  match rest with
  | [] => best
  | (k, s) :: rest' =>
      if updated s <? best_updated
      then oldest_from k (updated s) rest'
      else oldest_from best best_updated rest'
  end.

(** [None] stands for the [ValueError] of [min] on an empty dict. *)
Definition oldest (mem : dict Session) : option string :=
  match mem with
  | [] => None
  | (k, s) :: rest => Some (oldest_from k (updated s) rest)
  end.

(** In-place change of the session stored under [k]. *)
Fixpoint modify_session (k : string) (f : Session -> Session)
    (mem : dict Session) : dict Session :=
  match mem with
  | [] => []
  | (k', s) :: mem' =>
      if String.eqb k k' then (k', f s) :: mem'
      else (k', s) :: modify_session k f mem'
  end.

Definition add_message (t : Turn) (now : Time) (s : Session) : Session :=
  mkSession (messages s ++ [t])%list (created s) now.

Definition trim_messages (s : Session) : Session :=
  if MAX_MESSAGES_PER_SESSION <? length (messages s)
  then mkSession (last_n MAX_MESSAGES_PER_SESSION (messages s))
         (created s) (updated s)
  else s.

Definition get_session_history (session_id : string) (st : State)
    : list Turn :=
  if String.eqb session_id "" then []
  else
    match dict_get session_id (conversation_memory st) with
    | Some s => messages s
    | None => []
    end.

Definition clear_session (session_id : string) (st : State) : State :=
  if dict_mem session_id (conversation_memory st)
  then mkState (dict_del session_id (conversation_memory st))
         (ticks st) (trace st)
  else st.

Section WithEnv.

Variable env : Env.

(** The store after the clean-up step of [save_to_session]. *)
Definition evict_if_full (mem : dict Session) : dict Session :=
  if MAX_MEMORY_SESSIONS <=? length mem
  then match oldest mem with
       | Some k => dict_del k mem
       | None => mem  (* not reached: the store holds a session here *)
       end
  else mem.

(** The store and the clock readings after the initialisation step. *)
Definition init_if_new (session_id : string) (mem : dict Session)
    (t : nat) : dict Session * nat :=
  if dict_mem session_id mem then (mem, t)
  else ((mem ++ [(session_id,
                  mkSession [] (clock env t) (clock env (S t)))])%list,
        2 + t).

Definition save_to_session (session_id role content : string)
    (st : State) : State :=
  if String.eqb session_id "" then st
  else
    let mem1 := evict_if_full (conversation_memory st) in
    let '(mem2, t2) := init_if_new session_id mem1 (ticks st) in
    let mem3 :=
      modify_session session_id
        (add_message (mkTurn role content (clock env t2)) (clock env (S t2)))
        mem2 in
    let mem4 := modify_session session_id trim_messages mem3 in
    mkState mem4 (2 + t2) (trace st).

(** A sequence of [save_to_session] calls, [(session_id, role, content)]
    each. *)
Definition run_saves (calls : list (string * string * string))
    (st : State) : State :=
  fold_left
    (fun st c => save_to_session (fst (fst c)) (snd (fst c)) (snd c) st)
    calls st.

(** *** Retrieval *)

Definition call {A} (ev : Event) (r : Result A) : M A :=
  emit ev ;; of_result r.

Definition get_query_embedding (text : string) : M Vector :=
  call (Embed text) (embed_content env text).

Definition search_knowledge_base (query_embedding : Vector) (top_k : nat)
    : M (list Doc) :=
  try_except
    (data <- call (Search query_embedding top_k)
               (match_documents env query_embedding top_k) ;;
     ret (match data with
          | Some (d :: l) => d :: l
          | _ => []
          end))
    (fun e => emit (Print ("Search error: " ++ exn_str e)) ;; ret []).

End WithEnv.

(** *** Easter eggs *)

Fixpoint first_match (query_lower : string) (table : dict string)
    : option string :=
  match table with
  | [] => None
  | (trigger, canned) :: rest =>
      if contains trigger query_lower then Some canned
      else first_match query_lower rest
  end.

Definition check_easter_egg (q : string) : option string :=
  first_match (strip (lower q)) EASTER_EGGS.

(** *** Prompt builder *)

Definition metadata_of (doc : Doc) : dict string :=
  match doc_metadata doc with Some m => m | None => [] end.

Definition doc_type_of (doc : Doc) : string :=
  get_default "type" "unknown" (metadata_of doc).

(** The slug of a project name: lower case, spaces to underscores. *)
Definition slug (name : string) : string :=
  replace_char " "%char "_"%char (lower name).

(** The block the loop appends to [context_text] for document [i]. *)
Definition doc_block (i : nat) (doc : Doc) : string :=
  nl ++ "--- DOCUMENT " ++ str_of_nat (i + 1) ++ " ("
     ++ upper (doc_type_of doc) ++ ") ---" ++ nl
     ++ match doc_content doc with Some c => c | None => "" end ++ nl.

(** What the loop appends to [citations] for a document. *)
Definition doc_citations (doc : Doc) : list Citation :=
  if String.eqb (doc_type_of doc) "project"
  then [ mkCitation "project"
           (get_default "name" "Unknown Project" (metadata_of doc))
           ("project_" ++ slug (get_default "name" "" (metadata_of doc)))
           (get_default "url" "" (metadata_of doc)) ]
  else [].

(** [for i, doc in enumerate(context_docs)], from index [i]. *)
Fixpoint context_loop (i : nat) (docs : list Doc) (context_text : string)
    (cits : list Citation) : string * list Citation :=
  match docs with
  | [] => (context_text, cits)
  | doc :: rest =>
      context_loop (S i) rest (context_text ++ doc_block i doc)
        (cits ++ doc_citations doc)%list
  end.

Definition language_instruction (lang : string) : string :=
  if negb (String.eqb lang "en") && dict_mem lang LANGUAGE_PROMPTS
  then nl ++ nl ++ "## LANGUAGE INSTRUCTION" ++ nl
       ++ get_default lang "" LANGUAGE_PROMPTS ++ nl
       ++ "Respond in " ++ get_default lang lang SUPPORTED_LANGUAGES
       ++ " while maintaining your Charon personality."
  else "".

Definition build_system_prompt (context_docs : list Doc) (lang : string)
    : string * list Citation :=
  let '(context_text, cits) := context_loop 0 context_docs "" [] in
  (PERSONA_IDENTITY ++ context_text ++ PERSONA_RULES
     ++ language_instruction lang ++ nl,
   cits).

(** *** Chat handlers *)

(** A generator body: the events it yields before it ends or raises. *)
Definition Gen : Type := State -> (list SseEvent * option Exn) * State.

Record StreamingResponse := mkStreamingResponse {
  stream_body : Gen;
  x_citations : list Citation }.

(** What the client of [/chat/stream] receives. *)
Inductive StreamOutcome : Type :=
| Streamed (cits : list Citation) (events : list SseEvent)
    (failure : option Exn)
| Refused (e : Exn).

Definition turn_msg (t : Turn) : HistMsg :=
  mkHistMsg (Some (turn_role t)) (Some (turn_content t)).

Definition or_default (o : option string) (default : string) : string :=
  match o with Some s => s | None => default end.

(** [request.language or "en"] *)
Definition language_or_en (request : ChatRequest) : string :=
  match language request with
  | Some l => if String.eqb l "" then "en" else l
  | None => "en"
  end.

Definition history_line (m : HistMsg) : string :=
  nl ++ upper (or_default (msg_role m) "user") ++ ": "
     ++ or_default (msg_content m) "".

Definition history_text (recent : list HistMsg) : string :=
  fold_left (fun acc m => acc ++ history_line m) recent "".

Definition full_prompt_of (system_prompt : string) (recent : list HistMsg)
    (q : string) : string :=
  system_prompt ++ nl ++ nl ++ "## CONVERSATION HISTORY"
    ++ history_text recent ++ nl ++ nl ++ "User Query: " ++ q.

Definition is_rate_limit (error_str : string) : bool :=
  contains "ResourceExhausted" error_str || contains "429" error_str.

Definition not_subscriptable : Exn :=
  Exception "'NoneType' object is not subscriptable".

Definition gemini_of (m : HistMsg) : GeminiMsg :=
  mkGeminiMsg
    (match msg_role m with
     | Some r => if String.eqb r "user" then "user" else "model"
     | None => "model"
     end)
    [or_default (msg_content m) ""].

Definition nonempty (s : string) : bool := negb (String.eqb s "").

Section Handlers.

Variable env : Env.

(** [get_session_history(request.session_id)] *)
Definition session_history_of (request : ChatRequest) (st : State)
    : list Turn :=
  match session_id request with
  | Some sid => get_session_history sid st
  | None => []
  end.

(** [if request.session_id:] then both turns are saved. *)
Definition remember (request : ChatRequest) (answer : string) : M unit :=
  match session_id request with
  | Some sid =>
      if nonempty sid
      then modify_state (save_to_session env sid "user" (query request)) ;;
           modify_state (save_to_session env sid "assistant" answer)
      else ret tt
  | None => ret tt
  end.

Definition apology_reply (request : ChatRequest) : ChatReply :=
  mkChatReply RATE_LIMIT_APOLOGY [] false (session_id request)
    (Some (language request)).

Definition critical_reply (request : ChatRequest) : ChatReply :=
  mkChatReply CRITICAL_ERROR [] false (session_id request) None.

(** The turn after the easter-egg check: history, retrieval, prompt,
    generation, persistence.  [inr] carries the reply returned from
    inside the [except] block of the generation call. *)
Definition chat_rag (request : ChatRequest) : M ChatReply :=
  session_history <-
    (fun st => (Ok (session_history_of request st), st)) ;;
  let combined_history :=
    match session_history with
    | [] => conversation_history request
    | _ => Some (map turn_msg session_history)
    end in
  query_embedding <- get_query_embedding env (query request) ;;
  context_docs <- search_knowledge_base env query_embedding 5 ;;
  let '(system_prompt, cits) :=
    build_system_prompt context_docs (language_or_en request) in
  recent <- match combined_history with
            | Some h => ret (last_n 6 h)
            | None => raise not_subscriptable
            end ;;
  let full_prompt := full_prompt_of system_prompt recent (query request) in
  outcome <-
    try_except
      (text <- call (Generate full_prompt)
                 (generate_content env full_prompt) ;;
       ret (inl text))
      (fun e =>
         if is_rate_limit (exn_str e)
         then ret (inr (apology_reply request))
         else raise e) ;;
  match outcome with
  | inr reply => ret reply
  | inl response_text =>
      remember request response_text ;;
      ret (mkChatReply response_text cits false (session_id request)
             (Some (language request)))
  end.

(** [POST /chat].  The analytics counters the handler bumps first are
    not part of the session store and are left out. *)
Definition chat (request : ChatRequest) : M ChatReply :=
  try_except
    (match check_easter_egg (query request) with
     | Some egg =>
         if nonempty egg
         then remember request egg ;;
              ret (mkChatReply egg [] true (session_id request) None)
         else chat_rag request
     | None => chat_rag request
     end)
    (fun e =>
       emit (Print ("Chat error: " ++ exn_str e)) ;;
       ret (critical_reply request)).

(** [generate_streaming_response]: the conversation handed to Gemini is
    [messages[:-1]], the query being sent as the new message. *)
Definition generate_streaming_response (q system_prompt : string)
    (history : option (list HistMsg)) : Gen :=
  fun st =>
    match history with
    | None => (([], Some not_subscriptable), st)
    | Some h =>
        let msgs :=
          ([mkGeminiMsg "user" [system_prompt];
            mkGeminiMsg "model" [MODEL_ACK]]
           ++ map gemini_of (last_n 6 h)
           ++ [mkGeminiMsg "user" [q]])%list in
        let sent := removelast msgs in
        let '(chunks, failure) := send_message_stream env sent q in
        let st' :=
          mkState (conversation_memory st) (ticks st)
            (trace st ++ [SendMessageStream sent q])%list in
        let events := map SseText (filter nonempty chunks) in
        match failure with
        | None => ((events ++ [SseDone])%list, None, st')
        | Some e => (events, Some e, st')
        end
    end.

(** [POST /chat/stream] *)
Definition chat_stream (request : ChatRequest) : M StreamingResponse :=
  try_except
    (query_embedding <- get_query_embedding env (query request) ;;
     context_docs <- search_knowledge_base env query_embedding 5 ;;
     let '(system_prompt, cits) := build_system_prompt context_docs "en" in
     ret (mkStreamingResponse
            (generate_streaming_response (query request) system_prompt
               (conversation_history request))
            cits))
    (fun e => raise (HTTPException 500 (exn_str e))).

(** The handler, then the server draining the generator it returned. *)
Definition serve_chat_stream (request : ChatRequest) (st : State)
    : StreamOutcome * State :=
  match chat_stream request st with
  | (Ok r, st1) =>
      let '(events, failure, st2) := stream_body r st1 in
      (Streamed (x_citations r) events failure, st2)
  | (Raise e, st1) => (Refused e, st1)
  end.

End Handlers.

(** *** Session endpoints *)

(** The body of [GET /session/{session_id}]; [created] and [updated]
    are [None] (JSON null) for an unknown session. *)
Record SessionView := mkSessionView {
  view_session_id : string;
  view_messages : list Turn;
  view_created : option Time;
  view_updated : option Time;
  message_count : nat }.

Definition get_session (session_id : string) (st : State) : SessionView :=
  let history := get_session_history session_id st in
  let session_data := dict_get session_id (conversation_memory st) in
  mkSessionView session_id history
    (option_map created session_data) (option_map updated session_data)
    (length history).

(** [DELETE /session/{session_id}]; the body returned is constant. *)
Definition delete_session (session_id : string) (st : State) : State :=
  clear_session session_id st.

End Main.

(** ** backend/maintain.py *)

Module Maintain.
Import Py.

Definition nl : string := String (ascii_of_nat 10) EmptyString.

(** *** Data *)

(** A JSON value of a metadata dict. *)
Inductive value : Type :=
| VStr (s : string)
| VInt (n : nat)
| VList (l : list string)
| VNone.

Definition Vector : Type := list nat.

(** A row of the [documents] table. *)
Record Row := mkRow {
  row_content : string;
  row_metadata : dict value;
  row_embedding : Vector }.

(** A key of a JSON object: absent, [null], or a value. *)
Inductive field (A : Type) : Type :=
| Absent
| Null
| Val (a : A).
Arguments Absent {A}.
Arguments Null {A}.
Arguments Val {A} a.

(** An entry of GitHub's repository listing, with the keys [sync_github]
    reads; [fork] is [false] for an absent or false flag. *)
Record Repo := mkRepo {
  fork : bool;
  name : string;
  description : field string;
  repo_language : field string;
  topics : option (list string);
  stargazers_count : option nat;
  html_url : string }.

(** The lines the script prints, one constructor per [print]. *)
Inductive LogLine : Type :=
| Processing (source_id : string)
| OldRecordsPurged
| PurgeWarning (e : string)
| GeneratingEmbedding
| GeminiApiError (e : string)
| EmbeddingFailed
| UploadSuccess
| InsertFailed (e : string)
| SyncingGithub
| GithubApiError (e : string)
| SyncedGithub (synced : nat).

Inductive Result (A : Type) : Type :=
| Ok (a : A)
| Raise (e : string).
Arguments Ok {A} a.
Arguments Raise {A} e.

(** The collaborators, each asked with the number of outside calls made
    before: Supabase's delete and insert ([Some e] when they raise),
    Gemini's document embedding, and GitHub's listing (the request,
    [raise_for_status] and the JSON decoding together). *)
Record Env := mkEnv {
  delete_raises : nat -> string -> option string;
  embed_content : nat -> string -> Result Vector;
  insert_raises : nat -> Row -> option string;
  github_repos : nat -> Result (list Repo) }.

(** The [documents] table, the number of outside calls made, and the
    lines printed. *)
Record State := mkState {
  documents : list Row;
  calls : nat;
  log : list LogLine }.

Definition M (A : Type) : Type := State -> A * State.

Definition ret {A} (a : A) : M A := fun st => (a, st).

Definition bind {A B} (m : M A) (k : A -> M B) : M B :=
  fun st => let '(a, st') := m st in k a st'.

Notation "x <- c1 ;; c2" := (bind c1 (fun x => c2))
  (at level 61, c1 at next level, right associativity).
Notation "c1 ;; c2" := (bind c1 (fun _ => c2))
  (at level 61, right associativity).

Definition print (l : LogLine) : M unit :=
  fun st => (tt, mkState (documents st) (calls st) (log st ++ [l])%list).

(** The index of the next outside call, which is then counted. *)
Definition next_call : M nat :=
  fun st => (calls st, mkState (documents st) (S (calls st)) (log st)).

Definition set_documents (f : list Row -> list Row) : M unit :=
  fun st => (tt, mkState (f (documents st)) (calls st) (log st)).

(** [metadata->>source_id = source_id]; source ids are text. *)
Definition has_source_id (source_id : string) (r : Row) : bool :=
  match dict_get "source_id" (row_metadata r) with
  | Some (VStr s) => String.eqb s source_id
  | _ => false
  end.

Section WithEnv.

Variable env : Env.

(** *** Core functions *)

Definition get_embedding (text : string) : M (option Vector) :=
  c <- next_call ;;
  match embed_content env c text with
  | Ok v => ret (Some v)
  | Raise e => print (GeminiApiError e) ;; ret None
  end.

(** A delete that raises leaves the table as it was. *)
Definition purge (source_id : string) : M unit :=
  c <- next_call ;;
  match delete_raises env c source_id with
  | None =>
      set_documents (filter (fun r => negb (has_source_id source_id r))) ;;
      print OldRecordsPurged
  | Some e => print (PurgeWarning e)
  end.

Definition upload_knowledge (source_id content : string)
    (metadata : dict value) : M bool :=
  print (Processing source_id) ;;
  purge source_id ;;
  print GeneratingEmbedding ;;
  vector <- get_embedding content ;;
  match vector with
  | None => print EmbeddingFailed ;; ret false
  | Some v =>
      let payload :=
        mkRow content (dict_set "source_id" (VStr source_id) metadata) v in
      c <- next_call ;;
      match insert_raises env c payload with
      | None =>
          set_documents (fun docs => docs ++ [payload])%list ;;
          print UploadSuccess ;;
          ret true
      | Some e => print (InsertFailed e) ;; ret false
      end
  end.

(** *** GitHub sync *)

(** [repo.get(key, default)] inside an f-string. *)
Definition shown (f : field string) (default : string) : string :=
  match f with
  | Absent => default
  | Null => "None"
  | Val s => s
  end.

Definition github_source_id (repo : Repo) : string :=
  "github_" ++ replace_char "-"%char "_"%char (lower (name repo)).

Definition github_content (repo : Repo) : string :=
  "Project: " ++ name repo ++ nl
  ++ "Description: " ++ shown (description repo) "No description" ++ nl
  ++ "Language: " ++ shown (repo_language repo) "Unknown" ++ nl
  ++ "Topics: "
  ++ join ", " (match topics repo with Some l => l | None => [] end) ++ nl
  ++ "Stars: "
  ++ str_of_nat (match stargazers_count repo with Some n => n | None => 0 end)
  ++ nl
  ++ "URL: " ++ html_url repo ++ nl ++ nl
  ++ "This is a GitHub project by Ayomide Alli. It demonstrates skills in "
  ++ shown (repo_language repo) "programming" ++ ".".

Definition github_metadata (repo : Repo) : dict value :=
  [ ("type", VStr "project");
    ("source", VStr "github");
    ("name", VStr (name repo));
    ("url", VStr (html_url repo));
    ("language",
     match repo_language repo with Val s => VStr s | _ => VNone end);
    ("stars",
     VInt (match stargazers_count repo with Some n => n | None => 0 end));
    ("topics",
     VList (match topics repo with Some l => l | None => [] end)) ].

(** [for repo in repos], with the running [synced]. *)
Fixpoint sync_repos (repos : list Repo) (synced : nat) : M nat :=
  match repos with
  | [] => ret synced
  | repo :: rest =>
      if fork repo then sync_repos rest synced
      else
        uploaded <- upload_knowledge (github_source_id repo)
                      (github_content repo) (github_metadata repo) ;;
        sync_repos rest (if uploaded then S synced else synced)
  end.

Definition sync_github : M nat :=
  print SyncingGithub ;;
  c <- next_call ;;
  match github_repos env c with
  | Raise e => print (GithubApiError e) ;; ret 0
  | Ok repos =>
      synced <- sync_repos repos 0 ;;
      print (SyncedGithub synced) ;;
      ret synced
  end.

End WithEnv.

(** The source ids announced by [upload_knowledge], in order. *)
Definition processed (l : list LogLine) : list string :=
  flat_map (fun line => match line with
                        | Processing source_id => [source_id]
                        | _ => []
                        end) l.

(** The [source_id] a row is stored under. *)
Definition row_key (r : Row) : option value :=
  dict_get "source_id" (row_metadata r).

(** *** The other sources and the command line *)

(** An entry of Kaggle's kernel listing; an absent key is [None], the
    values present are text or a count. *)
Record Kernel := mkKernel {
  kernel_title : option string;
  kernel_slug : option string;
  kernel_author : option string;
  kernel_language : option string;
  kernel_type : option string;
  kernel_votes : option nat;
  kernel_ref : option string }.

(** A post of the Hashnode answer. *)
Record PostContent := mkPostContent { content_text : option string }.

Record Post := mkPost {
  post_title : option string;
  post_slug : option string;
  post_content : field PostContent;
  post_brief : option string;
  post_tags : option (list string);
  post_url : option string;
  post_published_at : option string }.

(** The nesting of the GraphQL answer, [data.user.publications.edges[0]
    .node.posts.edges[i].node]; an edge without [node] is [None]. *)
Record PostsConn := mkPostsConn { posts_edges : field (list (option Post)) }.
Record PubNode := mkPubNode { node_posts : field PostsConn }.
Record PubEdge := mkPubEdge { edge_node : field PubNode }.
Record PubConn := mkPubConn { pub_edges : field (list PubEdge) }.
Record UserObj := mkUserObj { user_publications : field PubConn }.
Record DataObj := mkDataObj { data_user : field UserObj }.
Record Answer := mkAnswer { answer_data : field DataObj }.

(** The lines printed by the sync functions of the other sources and by
    the command handlers. *)
Inductive Note : Type :=
| SyncingKaggle
| KaggleKeyMissing
| KaggleApiError (e : string)
| SyncedKaggle (synced : nat)
| SyncingBlog
| HashnodeApiError (e : string)
| NoPublications
| HashnodeParseError (e : string)
| SyncedBlog (synced : nat)
| SyncSummary (github kaggle blog total : nat)
| FileNotFound (file : string)
| UpdatingCv (file : string)
| AddingProject (project : string)
| AddingPhilosophy (topic : string)
| UnknownSource (source : string)
| HelpPrinted.

(** The configuration and the collaborators beyond [Env]: Kaggle's and
    Hashnode's listings, asked like the others with the number of
    outside calls made before, and the files on disk. *)
Record Sources := mkSources {
  base : Env;
  KAGGLE_USERNAME : string;
  KAGGLE_KEY : string;
  kaggle_kernels : nat -> Result (list Kernel);
  hashnode_answer : nat -> Result Answer;
  read_file : string -> option string }.

(** The run of the script: the table state and the notes printed.  The
    notes are kept apart from the upload log, so their order relative to
    its lines is not recorded. *)
Record Run := mkRun {
  kb : State;
  notes : list Note }.

Definition R (A : Type) : Type := Run -> A * Run.

Definition rret {A} (a : A) : R A := fun run => (a, run).

Definition rbind {A B} (m : R A) (k : A -> R B) : R B :=
  fun run => let '(a, run') := m run in k a run'.

Definition note (n : Note) : R unit :=
  fun run => (tt, mkRun (kb run) (notes run ++ [n])%list).

(** A computation on the table state, run inside the script. *)
Definition on_kb {A} (m : M A) : R A :=
  fun run => let '(a, st) := m (kb run) in (a, mkRun st (notes run)).

Definition or_else {A} (o : option A) (default : A) : A :=
  match o with Some a => a | None => default end.

(** [o.get(key, {})] on the way down the answer: [None] stands for the
    [AttributeError] that a [null] makes the next [.get] raise. *)
Definition descend {A} (f : field A) (empty : A) : option A :=
  match f with
  | Absent => Some empty
  | Null => None
  | Val a => Some a
  end.

Definition kaggle_source_id (kernel : Kernel) : string :=
  "kaggle_"
  ++ lower (replace_char "/"%char "_"%char (or_else (kernel_slug kernel) "")).

Definition kaggle_url (kernel : Kernel) : string :=
  "https://www.kaggle.com/code/" ++ or_else (kernel_ref kernel) "".

Definition blog_source_id (post : Post) : string :=
  "blog_"
  ++ lower (replace_char "-"%char "_"%char (or_else (post_slug post) "")).

(** [full_content[:2000] if full_content else brief] *)
Definition blog_text (post : Post) : string :=
  let full_content :=
    match post_content post with
    | Val c => or_else (content_text c) ""
    | _ => ""
    end in
  if String.eqb full_content "" then or_else (post_brief post) ""
  else slice_to 2000 full_content.

Definition project_source_id (project : string) : string :=
  "project_" ++ replace_char " "%char "_"%char (lower project).

Section WithSources.

Variable src : Sources.

Definition kaggle_content (kernel : Kernel) : string :=
  "Kaggle Notebook: " ++ or_else (kernel_title kernel) "Untitled" ++ nl
  ++ "Author: " ++ or_else (kernel_author kernel) (KAGGLE_USERNAME src) ++ nl
  ++ "Language: " ++ or_else (kernel_language kernel) "Python" ++ nl
  ++ "Type: " ++ or_else (kernel_type kernel) "notebook" ++ nl
  ++ "Votes: " ++ str_of_nat (or_else (kernel_votes kernel) 0) ++ nl
  ++ "URL: " ++ kaggle_url kernel ++ nl ++ nl
  ++ "This is a Kaggle notebook/kernel by Ayomide Alli showcasing data science and machine learning skills.".

Definition kaggle_metadata (kernel : Kernel) : dict value :=
  [ ("type", VStr "notebook");
    ("source", VStr "kaggle");
    ("name", VStr (or_else (kernel_title kernel) "Untitled"));
    ("url", VStr (kaggle_url kernel));
    ("language", VStr (or_else (kernel_language kernel) "Python"));
    ("votes", VInt (or_else (kernel_votes kernel) 0)) ].

Fixpoint sync_kernels (kernels : list Kernel) (synced : nat) : M nat :=
  match kernels with
  | [] => ret synced
  | kernel :: rest =>
      uploaded <- upload_knowledge (base src) (kaggle_source_id kernel)
                    (kaggle_content kernel) (kaggle_metadata kernel) ;;
      sync_kernels rest (if uploaded then S synced else synced)
  end.

Definition sync_kaggle : R nat :=
  rbind (note SyncingKaggle) (fun _ =>
  if String.eqb (KAGGLE_KEY src) ""
  then rbind (note KaggleKeyMissing) (fun _ => rret 0)
  else
    rbind (on_kb next_call) (fun c =>
    match kaggle_kernels src c with
    | Raise e => rbind (note (KaggleApiError e)) (fun _ => rret 0)
    | Ok kernels =>
        rbind (on_kb (sync_kernels kernels 0)) (fun synced =>
        rbind (note (SyncedKaggle synced)) (fun _ => rret synced))
    end)).

Definition blog_content (post : Post) : string :=
  let tags := or_else (post_tags post) [] in
  "Blog Post: " ++ or_else (post_title post) "Untitled" ++ nl
  ++ "Author: Ayomide Alli" ++ nl
  ++ "Tags: " ++ join ", " tags ++ nl
  ++ "URL: " ++ or_else (post_url post) "" ++ nl ++ nl
  ++ blog_text post ++ nl ++ nl
  ++ "This is a technical blog post by Ayomide Alli discussing topics related to "
  ++ match tags with
     | [] => "software engineering"
     | _ => join ", " tags
     end
  ++ ".".

Definition blog_metadata (post : Post) : dict value :=
  [ ("type", VStr "blog");
    ("source", VStr "hashnode");
    ("name", VStr (or_else (post_title post) "Untitled"));
    ("url", VStr (or_else (post_url post) ""));
    ("tags", VList (or_else (post_tags post) []));
    ("published_at", VStr (or_else (post_published_at post) "")) ].

Fixpoint sync_posts (posts : list Post) (synced : nat) : M nat :=
  match posts with
  | [] => ret synced
  | post :: rest =>
      uploaded <- upload_knowledge (base src) (blog_source_id post)
                    (blog_content post) (blog_metadata post) ;;
      sync_posts rest (if uploaded then S synced else synced)
  end.

(** The publications of an answer: [Raise] for the [AttributeError] of a
    [null] on the way, [Ok None] for a [null] list of edges. *)
Definition publications_of (answer : Answer)
    : Result (option (list PubEdge)) :=
  match descend (answer_data answer) (mkDataObj Absent) with
  | None => Raise "'NoneType' object has no attribute 'get'"
  | Some d =>
      match descend (data_user d) (mkUserObj Absent) with
      | None => Raise "'NoneType' object has no attribute 'get'"
      | Some u =>
          match descend (user_publications u) (mkPubConn Absent) with
          | None => Raise "'NoneType' object has no attribute 'get'"
          | Some pubs =>
              match pub_edges pubs with
              | Absent => Ok (Some [])
              | Null => Ok None
              | Val l => Ok (Some l)
              end
          end
      end
  end.

(** [[edge['node'] for edge in posts_edges]] *)
Fixpoint nodes_of (edges : list (option Post)) : Result (list Post) :=
  match edges with
  | [] => Ok []
  | None :: _ => Raise "'node'"
  | Some post :: rest =>
      match nodes_of rest with
      | Ok posts => Ok (post :: posts)
      | Raise e => Raise e
      end
  end.

(** The posts of the first publication. *)
Definition posts_of (first : PubEdge) : Result (list Post) :=
  match descend (edge_node first) (mkPubNode Absent) with
  | None => Raise "'NoneType' object has no attribute 'get'"
  | Some node =>
      match descend (node_posts node) (mkPostsConn Absent) with
      | None => Raise "'NoneType' object has no attribute 'get'"
      | Some conn =>
          match posts_edges conn with
          | Absent => Ok []
          | Null => Raise "'NoneType' object is not iterable"
          | Val edges => nodes_of edges
          end
      end
  end.

Definition sync_blog : R nat :=
  rbind (note SyncingBlog) (fun _ =>
  rbind (on_kb next_call) (fun c =>
  match hashnode_answer src c with
  | Raise e => rbind (note (HashnodeApiError e)) (fun _ => rret 0)
  | Ok answer =>
      match publications_of answer with
      | Raise e => rbind (note (HashnodeParseError e)) (fun _ => rret 0)
      | Ok None | Ok (Some []) =>
          rbind (note NoPublications) (fun _ => rret 0)
      | Ok (Some (first :: _)) =>
          match posts_of first with
          | Raise e => rbind (note (HashnodeParseError e)) (fun _ => rret 0)
          | Ok posts =>
              rbind (on_kb (sync_posts posts 0)) (fun synced =>
              rbind (note (SyncedBlog synced)) (fun _ => rret synced))
          end
      end
  end)).

(** The dict [sync_all] returns. *)
Record SyncResults := mkSyncResults {
  github_synced : nat;
  kaggle_synced : nat;
  blog_synced : nat }.

Definition sync_all : R SyncResults :=
  rbind (on_kb (sync_github (base src))) (fun g =>
  rbind sync_kaggle (fun k =>
  rbind sync_blog (fun b =>
  rbind (note (SyncSummary g k b (g + k + b))) (fun _ =>
  rret (mkSyncResults g k b))))).

(** *** Command handlers *)

Definition handle_cv_update (file : string) : R unit :=
  match read_file src file with
  | None => note (FileNotFound file)
  | Some content =>
      rbind (note (UpdatingCv file)) (fun _ =>
      rbind (on_kb (upload_knowledge (base src) "cv_main" content
                      [("type", VStr "resume");
                       ("category", VStr "core_bio")])) (fun _ =>
      rret tt))
  end.

Definition handle_project_add (project desc stack url : string) : R unit :=
  let full_text :=
    "Project Name: " ++ project ++ ". Description: " ++ desc
    ++ ". Tech Stack: " ++ stack ++ "." in
  rbind (note (AddingProject project)) (fun _ =>
  rbind (on_kb (upload_knowledge (base src) (project_source_id project)
                  full_text
                  [("type", VStr "project"); ("name", VStr project);
                   ("url", VStr url)])) (fun _ =>
  rret tt)).

Definition handle_philosophy (topic text : string) : R unit :=
  rbind (note (AddingPhilosophy topic)) (fun _ =>
  rbind (on_kb (upload_knowledge (base src) ("thought_" ++ lower topic) text
                  [("type", VStr "philosophy"); ("topic", VStr topic)]))
    (fun _ => rret tt)).

(** [handle_sync]; [None] is a missing or empty [args.source]. *)
Definition handle_sync (source : option string) : R unit :=
  let source :=
    match source with
    | Some s => if String.eqb s "" then "all" else lower s
    | None => "all"
    end in
  if String.eqb source "all" then rbind sync_all (fun _ => rret tt)
  else if String.eqb source "github"
  then rbind (on_kb (sync_github (base src))) (fun _ => rret tt)
  else if String.eqb source "kaggle" then rbind sync_kaggle (fun _ => rret tt)
  else if String.eqb source "blog" then rbind sync_blog (fun _ => rret tt)
  else note (UnknownSource source).

(** The parsed command line. *)
Inductive Command : Type :=
| UpdateCv (file : string)
| AddProject (project desc stack url : string)
| AddThought (topic text : string)
| Sync (source : option string)
| NoCommand.

Definition main (args : Command) : R unit :=
  match args with
  | UpdateCv file => handle_cv_update file
  | AddProject project desc stack url =>
      handle_project_add project desc stack url
  | AddThought topic text => handle_philosophy topic text
  | Sync source => handle_sync source
  | NoCommand => note HelpPrinted
  end.

End WithSources.

End Maintain.

(** ** Notions used to state the properties *)

Module Obs.
Import Py Main.

(** A [save_to_session] call: session id, role, content. *)
Definition Save : Type := (string * string * string)%type.

Definition save_id (c : Save) : string := fst (fst c).

(** The (role, content) pairs a sequence of calls appended to [sid], in
    arrival order. *)
Definition appended (sid : string) (calls : list Save)
    : list (string * string) :=
  map (fun c => (snd (fst c), snd c))
    (filter (fun c => String.eqb (save_id c) sid) calls).

(** The (role, content) pairs stored for [sid]. *)
Definition stored (sid : string) (st : State) : list (string * string) :=
  map (fun t => (turn_role t, turn_content t)) (get_session_history sid st).

(** The number of live sessions. *)
Definition live_sessions (st : State) : nat :=
  length (conversation_memory st).

(** An operation on the session store: a save, or the clearing that
    [DELETE /session/{id}] performs. *)
Inductive StoreOp : Type :=
| OpSave (session_id role content : string)
| OpClear (session_id : string).

Definition apply_op (env : Env) (op : StoreOp) (st : State) : State :=
  match op with
  | OpSave session_id role content =>
      save_to_session env session_id role content st
  | OpClear session_id => clear_session session_id st
  end.

(** The store after a sequence of operations. *)
Definition run_ops (env : Env) (ops : list StoreOp) (st : State) : State :=
  fold_left (fun st op => apply_op env op st) ops st.

(** The shape every reachable store has: unique ids, at most
    [MAX_MEMORY_SESSIONS] sessions, no session under the empty id, and
    between one and [MAX_MESSAGES_PER_SESSION] messages per session. *)
Definition store_ok (st : State) : Prop :=
  NoDup (keys (conversation_memory st)) /\
  live_sessions st <= MAX_MEMORY_SESSIONS /\
  forall sid s,
    dict_get sid (conversation_memory st) = Some s ->
    sid <> "" /\
    1 <= length (messages s) /\
    length (messages s) <= MAX_MESSAGES_PER_SESSION.

(** The events a handler run added to the trace of [st]. *)
Definition new_events (st st' : State) : list Event :=
  skipn (length (trace st)) (trace st').

Definition is_outside_call (ev : Event) : bool :=
  match ev with
  | Print _ => false
  | _ => true
  end.

(** [st] with further events on its trace. *)
Definition with_events (st : State) (evs : list Event) : State :=
  mkState (conversation_memory st) (ticks st) (trace st ++ evs)%list.

(** The history a turn works from: the session's when it has one, the
    request's otherwise. *)
Definition combined_history_of (request : ChatRequest) (st : State)
    : option (list HistMsg) :=
  match session_history_of request st with
  | [] => conversation_history request
  | _ => Some (map turn_msg (session_history_of request st))
  end.

(** The text the prompt builder's loop assembles from the documents. *)
Definition context_text_of (docs : list Doc) : string :=
  fst (context_loop 0 docs "" []).

(** [c] occurs in [s]. *)
Fixpoint has_char (c : ascii) (s : string) : bool :=
  match s with
  | EmptyString => false
  | String a s' => Ascii.eqb a c || has_char c s'
  end.

(** The world of [env] in which a search that raised returns no rows
    instead. *)
Definition search_recovered (env : Env) : Env :=
  mkEnv (clock env) (embed_content env)
    (fun v k =>
       match match_documents env v k with
       | Raise _ => Ok None
       | r => r
       end)
    (generate_content env) (send_message_stream env).

End Obs.

(** ** Notions used to state the ingestion properties *)

Module KbObs.
Import Py Maintain.

(** The lines a run added to the log of [st]. *)
Definition new_lines (st st' : State) : list LogLine :=
  skipn (length (log st)) (log st').

Definition is_success (l : LogLine) : bool :=
  match l with
  | UploadSuccess => true
  | _ => false
  end.

(** The uploads a log reports as done. *)
Definition successes (l : list LogLine) : nat :=
  length (filter is_success l).

(** The table after the purge step of an upload of [source_id]. *)
Definition after_purge (env : Env) (source_id : string) (st : State)
    : list Row :=
  match delete_raises env (calls st) source_id with
  | None => filter (fun r => negb (has_source_id source_id r)) (documents st)
  | Some _ => documents st
  end.

(** The row an upload inserts. *)
Definition payload_of (source_id content : string) (metadata : dict value)
    (v : Vector) : Row :=
  mkRow content (dict_set "source_id" (VStr source_id) metadata) v.

(** The rows stored under [source_id]. *)
Definition rows_of (source_id : string) (docs : list Row) : list Row :=
  filter (has_source_id source_id) docs.


(** The sources [handle_sync] knows. *)
Definition known_sources : list string := ["all"; "github"; "kaggle"; "blog"].

End KbObs.

(** ** Concrete inputs *)

Module Scenarios.
Import Py Main Obs.

(** A world in which every collaborator answers: the clock counts its
    readings, retrieval finds nothing. *)
Definition env_ok : Env :=
  mkEnv (fun n => n)
    (fun _ => Ok [1; 2; 3])
    (fun _ _ => Ok (Some []))
    (fun _ => Ok "A generated answer.")
    (fun _ _ => (["Hel"; ""; "lo"], None)).



(** Gemini fails every generation with an error of its own. *)
Definition env_generation_down : Env :=
  mkEnv (fun n => n)
    (fun _ => Ok [1; 2; 3])
    (fun _ _ => Ok (Some []))
    (fun _ => Raise (Exception "500 Internal error"))
    (fun _ _ => ([], Some (Exception "500 Internal error"))).

(** Gemini answers every generation with a quota error. *)
Definition env_rate_limited : Env :=
  mkEnv (fun n => n)
    (fun _ => Ok [1; 2; 3])
    (fun _ _ => Ok (Some []))
    (fun _ => Raise (Exception "429 ResourceExhausted: quota exceeded"))
    (fun _ _ => ([], Some (Exception "429 ResourceExhausted"))).

Definition ask (q : string) (sid : option string) : ChatRequest :=
  mkChatRequest q (Some []) sid None.

Definition projects_request : ChatRequest :=
  ask "Tell me about his projects" (Some "abc").

Definition charon_request : ChatRequest :=
  ask "what is charon" (Some "abc").

(** A retrieved project, and a retrieved text that quotes the German
    directive. *)
Definition project_doc : Doc :=
  mkDoc (Some "Project Name: My App.")
    (Some [("type", "project"); ("name", "My App");
           ("url", "https://example.org/my-app")]).

Definition german_doc : Doc :=
  mkDoc (Some "Antworte professionell auf Deutsch.") None.

Definition sid_of (i : nat) : string := "s" ++ str_of_nat i.

(** One first message for each of the sessions [s0 .. s(n-1)]. *)
Definition creations (n : nat) : list Save :=
  map (fun i => (sid_of i, "user", "hi")) (seq 0 n).

(** A store holding [MAX_MEMORY_SESSIONS] sessions, [s0] the oldest. *)
Definition full_store : State :=
  run_saves env_ok (creations MAX_MEMORY_SESSIONS) initial_state.

(** 42 turns for session [abc], numbered from 0. *)
Definition turn_no (i : nat) : Save :=
  ("abc", if Nat.even i then "user" else "assistant",
   "turn " ++ str_of_nat i).

Definition turns_42 : list Save := map turn_no (seq 0 42).

(** Ingestion: an empty table, an owned repository by name, the listing
    of [Foo-Bar] and [baz], and worlds in which everything works, the
    purge raises, or the embedding raises. *)
Definition empty_kb : Maintain.State := Maintain.mkState [] 0 [].

Definition repo_named (n : string) (is_fork : bool) : Maintain.Repo :=
  Maintain.mkRepo is_fork n Maintain.Null (Maintain.Val "Python")
    (Some ["rag"; "portfolio"]) (Some 3) ("https://github.com/AAEO04/" ++ n).

Definition two_repos : list Maintain.Repo :=
  [repo_named "Foo-Bar" false; repo_named "baz" false].

Definition kb_ok : Maintain.Env :=
  Maintain.mkEnv (fun _ _ => None) (fun _ _ => Maintain.Ok [7; 7])
    (fun _ _ => None) (fun _ => Maintain.Ok two_repos).

Definition kb_purge_down : Maintain.Env :=
  Maintain.mkEnv (fun _ _ => Some "relation documents does not exist")
    (fun _ _ => Maintain.Ok [7; 7]) (fun _ _ => None)
    (fun _ => Maintain.Ok two_repos).

Definition kb_embed_down : Maintain.Env :=
  Maintain.mkEnv (fun _ _ => None) (fun _ _ => Maintain.Raise "quota")
    (fun _ _ => None) (fun _ => Maintain.Ok two_repos).

Definition kb_github_down : Maintain.Env :=
  Maintain.mkEnv (fun _ _ => None) (fun _ _ => Maintain.Ok [7; 7])
    (fun _ _ => None) (fun _ => Maintain.Raise "403 rate limit exceeded").

(** The other sources: a kernel, a post inside a well-formed answer, the
    answer for an unknown user, and worlds with and without a Kaggle
    key. *)
Definition a_kernel : Maintain.Kernel :=
  Maintain.mkKernel (Some "Titanic EDA") (Some "allieniola/Titanic-EDA") None
    (Some "Python") (Some "notebook") (Some 5)
    (Some "allieniola/titanic-eda").

Definition a_post : Maintain.Post :=
  Maintain.mkPost (Some "Hello Rust") (Some "Hello-Rust")
    (Maintain.Val (Maintain.mkPostContent (Some "Ownership, briefly.")))
    (Some "A brief.") (Some ["rust"]) (Some "https://aaeo.hashnode.dev/hello-rust")
    (Some "2024-01-01").

Definition an_answer : Maintain.Answer :=
  Maintain.mkAnswer (Maintain.Val (Maintain.mkDataObj (Maintain.Val
    (Maintain.mkUserObj (Maintain.Val (Maintain.mkPubConn (Maintain.Val
      [Maintain.mkPubEdge (Maintain.Val (Maintain.mkPubNode (Maintain.Val
         (Maintain.mkPostsConn (Maintain.Val [Some a_post])))))]))))))).

Definition unknown_user_answer : Maintain.Answer :=
  Maintain.mkAnswer (Maintain.Val (Maintain.mkDataObj Maintain.Null)).

Definition sources_ok : Maintain.Sources :=
  Maintain.mkSources kb_ok "allieniola" "kaggle-key"
    (fun _ => Maintain.Ok [a_kernel]) (fun _ => Maintain.Ok an_answer)
    (fun file => if String.eqb file "cv.txt" then Some "CV text" else None).


Definition sources_github_down : Maintain.Sources :=
  Maintain.mkSources kb_github_down "allieniola" "kaggle-key"
    (fun _ => Maintain.Ok [a_kernel])
    (fun _ => Maintain.Ok unknown_user_answer)
    (fun _ => None).

Definition empty_run : Maintain.Run := Maintain.mkRun empty_kb [].

(** The table after a first, successful upload of the CV. *)
Definition kb_with_cv : Maintain.State :=
  snd (Maintain.upload_knowledge kb_ok "cv_main" "First version"
         [("type", Maintain.VStr "resume")] empty_kb).

End Scenarios.

(** * Properties *)

Open Scope string_scope.
Open Scope list_scope.
Open Scope nat_scope.

(** ** Dictionaries *)

Section DictFacts.
Import Py.
Context {V : Type}.
Implicit Types (d : dict V) (k : string).

Lemma dict_get_del k k' d :
  dict_get k (dict_del k' d) = if String.eqb k k' then None else dict_get k d.
Proof.
  induction d as [|[k0 v] d IH]; simpl.
  - now destruct (String.eqb k k').
  - destruct (String.eqb k' k0) eqn:E0; simpl.
    + apply String.eqb_eq in E0; subst k0. rewrite IH.
      destruct (String.eqb k k') eqn:E; reflexivity.
    + rewrite IH. destruct (String.eqb k k0) eqn:E1; [|reflexivity].
      apply String.eqb_eq in E1; subst k0.
      now rewrite String.eqb_sym, E0.
Qed.

Lemma dict_get_app k d d' :
  dict_get k (d ++ d') =
  match dict_get k d with Some v => Some v | None => dict_get k d' end.
Proof.
  induction d as [|[k0 v] d IH]; simpl; [reflexivity|].
  now destruct (String.eqb k k0).
Qed.

Lemma dict_get_in_keys k d v : dict_get k d = Some v -> In k (keys d).
Proof.
  induction d as [|[k0 v0] d IH]; simpl; [discriminate|].
  destruct (String.eqb k k0) eqn:E; [|auto].
  apply String.eqb_eq in E; auto.
Qed.

Lemma dict_get_none_keys k d : dict_get k d = None -> ~ In k (keys d).
Proof.
  induction d as [|[k0 v0] d IH]; simpl; [tauto|].
  destruct (String.eqb k k0) eqn:E; [discriminate|].
  apply String.eqb_neq in E. intros H [H1|H1]; [congruence | now apply IH].
Qed.

Lemma keys_del_incl k d : incl (keys (dict_del k d)) (keys d).
Proof.
  intros x. unfold keys, dict_del. rewrite !in_map_iff.
  intros [kv [<- H]]. apply filter_In in H. exists kv; tauto.
Qed.

Lemma keys_del_NoDup k d : NoDup (keys d) -> NoDup (keys (dict_del k d)).
Proof.
  induction d as [|[k0 v] d IH]; simpl; [auto|].
  intros H. inversion H as [|? ? Hn Hd]; subst.
  destruct (String.eqb k k0); simpl; [auto|].
  constructor; [|auto]. intros Hin. apply Hn. now apply (keys_del_incl k).
Qed.

Lemma length_del_le k d : length (dict_del k d) <= length d.
Proof. apply filter_length_le. Qed.

End DictFacts.

(** ** The session store *)

Section SessionFacts.
Import Py Main Obs.
Variable env : Env.

Lemma dict_get_modify_same k f mem :
  dict_get k (modify_session k f mem) = option_map f (dict_get k mem).
Proof.
  induction mem as [|[k0 s] mem IH]; simpl; [reflexivity|].
  destruct (String.eqb k k0) eqn:E; simpl; rewrite E; auto.
Qed.

Lemma dict_get_modify_other k k' f mem :
  k <> k' -> dict_get k (modify_session k' f mem) = dict_get k mem.
Proof.
  intros Hne. induction mem as [|[k0 s] mem IH]; simpl; [reflexivity|].
  destruct (String.eqb k' k0) eqn:E; simpl.
  - apply String.eqb_eq in E; subst k0.
    apply String.eqb_neq in Hne. now rewrite Hne.
  - now rewrite IH.
Qed.

Lemma keys_modify k f mem : keys (modify_session k f mem) = keys mem.
Proof.
  induction mem as [|[k0 s] mem IH]; simpl; [reflexivity|].
  destruct (String.eqb k k0); simpl; [reflexivity|]. now f_equal.
Qed.

Lemma length_modify k f mem :
  length (modify_session k f mem) = length mem.
Proof.
  rewrite <- (length_map fst (modify_session k f mem)).
  fold (keys (modify_session k f mem)). rewrite keys_modify.
  apply length_map.
Qed.

Lemma evict_below mem :
  length mem < MAX_MEMORY_SESSIONS -> evict_if_full mem = mem.
Proof.
  intros H. unfold evict_if_full.
  destruct (MAX_MEMORY_SESSIONS <=? length mem) eqn:E; [|reflexivity].
  apply Nat.leb_le in E. lia.
Qed.

Lemma evict_lookup k mem :
  dict_get k (evict_if_full mem) = dict_get k mem \/
  dict_get k (evict_if_full mem) = None.
Proof.
  unfold evict_if_full.
  destruct (MAX_MEMORY_SESSIONS <=? length mem); [|auto].
  destruct (oldest mem) as [o|]; [|auto].
  rewrite dict_get_del. destruct (String.eqb k o); auto.
Qed.

Lemma evict_keys_incl mem : incl (keys (evict_if_full mem)) (keys mem).
Proof.
  unfold evict_if_full.
  destruct (MAX_MEMORY_SESSIONS <=? length mem); [|apply incl_refl].
  destruct (oldest mem); [apply keys_del_incl | apply incl_refl].
Qed.

Lemma evict_NoDup mem : NoDup (keys mem) -> NoDup (keys (evict_if_full mem)).
Proof.
  unfold evict_if_full.
  destruct (MAX_MEMORY_SESSIONS <=? length mem); [|auto].
  destruct (oldest mem); [apply keys_del_NoDup | auto].
Qed.

Lemma save_empty_id r c st : save_to_session env "" r c st = st.
Proof. reflexivity. Qed.

Lemma save_lookup_other sid r c st k :
  k <> sid ->
  dict_get k (conversation_memory (save_to_session env sid r c st)) =
  dict_get k (evict_if_full (conversation_memory st)) \/ sid = "".
Proof.
  intros Hne. unfold save_to_session.
  destruct (String.eqb sid "") eqn:E0.
  { right. now apply String.eqb_eq. }
  left. unfold init_if_new.
  destruct (dict_mem sid (evict_if_full (conversation_memory st))); simpl;
    rewrite !dict_get_modify_other by assumption; [reflexivity|].
  rewrite dict_get_app. destruct (dict_get k _); [reflexivity|].
  simpl. apply String.eqb_neq in Hne. now rewrite Hne.
Qed.

Lemma save_lookup_same sid r c st :
  sid <> "" ->
  exists t now t0 u0,
    dict_get sid (conversation_memory (save_to_session env sid r c st)) =
    Some (trim_messages
            (add_message (mkTurn r c t) now
               (match dict_get sid (evict_if_full (conversation_memory st)) with
                | Some s => s
                | None => mkSession [] t0 u0
                end))).
Proof.
  intros Hne. unfold save_to_session.
  apply String.eqb_neq in Hne. rewrite Hne.
  unfold init_if_new, dict_mem.
  destruct (dict_get sid (evict_if_full (conversation_memory st))) as [s|] eqn:E;
    simpl; rewrite !dict_get_modify_same.
  - rewrite E. simpl. eexists _, _, 0, 0. reflexivity.
  - rewrite dict_get_app, E. simpl. rewrite String.eqb_refl. simpl.
    eexists _, _, _, _. reflexivity.
Qed.

Lemma save_keys sid r c st :
  sid <> "" ->
  keys (conversation_memory (save_to_session env sid r c st)) =
  if dict_mem sid (evict_if_full (conversation_memory st))
  then keys (evict_if_full (conversation_memory st))
  else keys (evict_if_full (conversation_memory st)) ++ [sid].
Proof.
  intros Hne. unfold save_to_session.
  apply String.eqb_neq in Hne. rewrite Hne. unfold init_if_new.
  destruct (dict_mem sid (evict_if_full (conversation_memory st)));
    simpl; rewrite !keys_modify; [reflexivity|].
  unfold keys. now rewrite map_app.
Qed.

End SessionFacts.

Section LastN.
Import Py.
Context {A : Type}.
Implicit Types (l : list A) (n : nat).

Lemma last_n_short n l : length l <= n -> last_n n l = l.
Proof.
  intros H. unfold last_n. replace (length l - n) with 0 by lia. reflexivity.
Qed.

Lemma last_n_length n l : length (last_n n l) = Nat.min n (length l).
Proof. unfold last_n. rewrite length_skipn. lia. Qed.

Lemma last_n_suffix n l : exists older, l = older ++ last_n n l.
Proof.
  exists (firstn (length l - n) l). unfold last_n.
  symmetry. apply firstn_skipn.
Qed.

Lemma last_n_app n l1 l2 : last_n n (l1 ++ l2) = last_n n (last_n n l1 ++ l2).
Proof.
  destruct (Nat.le_gt_cases (length l1) n) as [H|H].
  - now rewrite (last_n_short n l1).
  - unfold last_n at 1 2. rewrite !length_app, last_n_length.
    replace (Nat.min n (length l1) + length l2 - n) with (length l2) by lia.
    replace (length l1 + length l2 - n) with (length l2 + (length l1 - n)) by lia.
    rewrite <- skipn_skipn. f_equal. unfold last_n.
    rewrite skipn_app. replace (length l1 - n - length l1) with 0 by lia.
    reflexivity.
Qed.

Lemma last_n_map {B} (f : A -> B) n l : map f (last_n n l) = last_n n (map f l).
Proof. unfold last_n. now rewrite skipn_map, length_map. Qed.

End LastN.

Section TrimFacts.
Import Py Main Obs.

Lemma trim_messages_spec s :
  messages (trim_messages s) = last_n MAX_MESSAGES_PER_SESSION (messages s).
Proof.
  unfold trim_messages.
  destruct (MAX_MESSAGES_PER_SESSION <? length (messages s)) eqn:E; [reflexivity|].
  apply Nat.ltb_ge in E. now rewrite last_n_short.
Qed.

Lemma trim_messages_length s :
  length (messages (trim_messages s)) <= MAX_MESSAGES_PER_SESSION.
Proof. rewrite trim_messages_spec, last_n_length. lia. Qed.

End TrimFacts.

Section HistoryFacts.
Import Py Main Obs.
Variable env : Env.

Lemma run_saves_snoc calls c st :
  run_saves env (calls ++ [c]) st =
  save_to_session env (save_id c) (snd (fst c)) (snd c) (run_saves env calls st).
Proof. unfold run_saves. now rewrite fold_left_app. Qed.

Lemma appended_snoc sid calls c :
  appended sid (calls ++ [c]) =
  appended sid calls ++
  (if String.eqb (save_id c) sid then [(snd (fst c), snd c)] else []).
Proof.
  unfold appended. rewrite filter_app, map_app. simpl.
  now destruct (String.eqb (save_id c) sid).
Qed.

Lemma stored_lookup sid st :
  sid <> "" ->
  stored sid st =
  map (fun t => (turn_role t, turn_content t))
    (match dict_get sid (conversation_memory st) with
     | Some s => messages s
     | None => []
     end).
Proof.
  intros H. unfold stored, get_session_history.
  apply String.eqb_neq in H. now rewrite H.
Qed.

Lemma stored_empty_id st : stored "" st = [].
Proof. reflexivity. Qed.

(** Another session's messages are untouched by a save, unless the
    clean-up step removed that session. *)
Lemma stored_save_other sid sid' r c st :
  sid <> sid' ->
  (stored sid (save_to_session env sid' r c st) = stored sid st \/
   stored sid (save_to_session env sid' r c st) = []) /\
  (evict_if_full (conversation_memory st) = conversation_memory st ->
   stored sid (save_to_session env sid' r c st) = stored sid st).
Proof.
  intros Hne.
  destruct (string_dec sid "") as [->|Hs]; [now rewrite !stored_empty_id; auto|].
  destruct (save_lookup_other env sid' r c st sid Hne) as [H| ->];
    [|rewrite save_empty_id; auto].
  rewrite !stored_lookup, H by assumption. split.
  - destruct (evict_lookup sid (conversation_memory st)) as [H1|H1];
      rewrite H1; auto.
  - now intros ->.
Qed.

(** The saved-to session holds its earlier messages (none when it was
    just created or just removed by the clean-up step) followed by the
    new one, cut to the most recent [MAX_MESSAGES_PER_SESSION]. *)
Lemma stored_save_same sid r c st :
  sid <> "" ->
  exists base,
    (base = stored sid st \/ base = []) /\
    (evict_if_full (conversation_memory st) = conversation_memory st ->
     base = stored sid st) /\
    stored sid (save_to_session env sid r c st) =
    last_n MAX_MESSAGES_PER_SESSION (base ++ [(r, c)]).
Proof.
  intros Hs.
  destruct (save_lookup_same env sid r c st Hs) as (t & now & t0 & u0 & H).
  set (rc := fun t => (turn_role t, turn_content t)).
  exists (map rc
            (match dict_get sid (evict_if_full (conversation_memory st)) with
             | Some s => messages s
             | None => []
             end)).
  rewrite !stored_lookup, H by assumption. fold rc. repeat split.
  - destruct (evict_lookup sid (conversation_memory st)) as [H1|H1];
      rewrite H1; auto.
  - now intros ->.
  - rewrite trim_messages_spec, last_n_map. f_equal.
    destruct (dict_get sid (evict_if_full (conversation_memory st)));
      simpl; [now rewrite map_app | reflexivity].
Qed.

Lemma stored_length_save sid sid' r c st :
  length (stored sid st) <= MAX_MESSAGES_PER_SESSION ->
  length (stored sid (save_to_session env sid' r c st))
  <= MAX_MESSAGES_PER_SESSION.
Proof.
  intros IH.
  destruct (string_dec sid' "") as [->|Hs']; [now rewrite save_empty_id|].
  destruct (string_dec sid sid') as [->|Hne].
  - destruct (stored_save_same sid' r c st Hs') as (base & _ & _ & ->).
    rewrite last_n_length. lia.
  - destruct (stored_save_other sid sid' r c st Hne) as [[-> | ->] _];
      simpl; [assumption | lia].
Qed.

Lemma stored_suffix_save sid sid' r c st calls :
  (exists older, appended sid calls = older ++ stored sid st) ->
  exists older,
    appended sid (calls ++ [(sid', r, c)]) =
    older ++ stored sid (save_to_session env sid' r c st).
Proof.
  intros [older IH]. rewrite appended_snoc. unfold save_id; simpl.
  destruct (string_dec sid' "") as [->|Hs'].
  { rewrite save_empty_id. destruct (String.eqb "" sid) eqn:E.
    - apply String.eqb_eq in E; subst sid. rewrite stored_empty_id.
      eexists. now rewrite app_nil_r.
    - exists older. now rewrite app_nil_r. }
  destruct (String.eqb sid' sid) eqn:E.
  - apply String.eqb_eq in E; subst sid'.
    destruct (stored_save_same sid r c st Hs') as (base & Hb & _ & ->).
    destruct (last_n_suffix MAX_MESSAGES_PER_SESSION (base ++ [(r, c)]))
      as [pre Hpre].
    destruct Hb as [-> | ->].
    + exists (older ++ pre). rewrite IH, <- !app_assoc. f_equal.
      exact Hpre.
    + exists (appended sid calls ++ pre). rewrite <- app_assoc. f_equal.
      exact Hpre.
  - apply String.eqb_neq in E.
    destruct (stored_save_other sid sid' r c st (not_eq_sym E))
      as [[-> | ->] _]; rewrite app_nil_r.
    + now exists older.
    + exists (appended sid calls). now rewrite app_nil_r.
Qed.

End HistoryFacts.

Section NoEviction.
Import Py Main Obs.
Variable env : Env.

Lemma NoDup_snoc {A} (l : list A) (x : A) :
  NoDup l -> ~ In x l -> NoDup (l ++ [x]).
Proof.
  induction l as [|a l IH]; simpl; intros Hd Hn.
  - constructor; [tauto | constructor].
  - inversion Hd as [|? ? Ha Hl]; subst. constructor.
    + rewrite in_app_iff. simpl. intros [H|[H|[]]]; [tauto|]. subst. tauto.
    + apply IH; tauto.
Qed.

Lemma nodup_length_incl (l l' : list string) :
  incl l l' ->
  length (nodup string_dec l) <= length (nodup string_dec l').
Proof.
  intros H. apply NoDup_incl_length; [apply NoDup_nodup|].
  intros x Hx. apply nodup_In. apply H. now apply nodup_In in Hx.
Qed.

(** While fewer than [MAX_MEMORY_SESSIONS] distinct ids have been used,
    the clean-up step never fires and every session holds exactly the
    most recent messages appended to it. *)
Lemma no_eviction_invariant calls :
  length (nodup string_dec (map save_id calls)) < MAX_MEMORY_SESSIONS ->
  let st := run_saves env calls initial_state in
  NoDup (keys (conversation_memory st)) /\
  incl (keys (conversation_memory st)) (map save_id calls) /\
  forall sid, sid <> "" ->
    stored sid st = last_n MAX_MESSAGES_PER_SESSION (appended sid calls).
Proof.
  induction calls as [|[[sid' r] c] calls IH] using rev_ind; intros Hlt.
  - simpl. split; [apply NoDup_nil | split; [apply incl_refl | ]].
    intros sid Hs. now rewrite stored_lookup.
  - rewrite map_app in Hlt. simpl in Hlt.
    assert (Hlt' : length (nodup string_dec (map save_id calls))
                   < MAX_MEMORY_SESSIONS).
    { eapply Nat.le_lt_trans; [|exact Hlt].
      apply nodup_length_incl, incl_appl, incl_refl. }
    specialize (IH Hlt'). cbv zeta in IH. destruct IH as (Hnd & Hincl & Hst).
    cbv zeta. rewrite run_saves_snoc. cbn [fst snd].
    change (save_id (sid', r, c)) with sid' in *.
    set (st := run_saves env calls initial_state) in *.
    assert (Hev : evict_if_full (conversation_memory st) = conversation_memory st).
    { apply evict_below. eapply Nat.le_lt_trans; [|exact Hlt'].
      rewrite <- (length_map fst (conversation_memory st)).
      apply NoDup_incl_length; [exact Hnd|].
      intros x Hx. apply nodup_In. now apply Hincl. }
    destruct (string_dec sid' "") as [->|Hs'].
    { rewrite save_empty_id. split; [assumption | split].
      - rewrite map_app. now apply incl_appl.
      - intros sid Hs. rewrite appended_snoc. cbn [fst snd].
        change (save_id ("", r, c)) with "".
        destruct (String.eqb "" sid) eqn:E.
        + apply String.eqb_eq in E. congruence.
        + rewrite app_nil_r, ?save_empty_id. now apply Hst. }
    rewrite save_keys, Hev by assumption. split; [|split].
    + unfold dict_mem.
      destruct (dict_get sid' (conversation_memory st)) eqn:E; [assumption|].
      apply NoDup_snoc; [assumption | now apply dict_get_none_keys].
    + rewrite map_app. cbn [map]. change (save_id (sid', r, c)) with sid'.
      destruct (dict_mem sid' (conversation_memory st)).
      * now apply incl_appl.
      * apply incl_app; [now apply incl_appl | apply incl_appr, incl_refl].
    + intros sid Hs. rewrite appended_snoc. cbn [fst snd].
      change (save_id (sid', r, c)) with sid'.
      destruct (String.eqb sid' sid) eqn:E.
      * apply String.eqb_eq in E; subst sid'.
        destruct (stored_save_same env sid r c st Hs) as (base & _ & Hb & ->).
        rewrite (Hb Hev), (Hst sid Hs). symmetry. apply last_n_app.
      * apply String.eqb_neq in E. rewrite app_nil_r.
        destruct (stored_save_other env sid sid' r c st (not_eq_sym E))
          as [_ H]. rewrite (H Hev). now apply Hst.
Qed.

End NoEviction.

Section SessionClaims.
Import Py Main Obs Scenarios.

(** C2 (amended). For every session id and any sequence of appends made
    since start-up, the stored message list has at most
    [MAX_MESSAGES_PER_SESSION] entries and is a suffix, in arrival order,
    of the messages appended to that id; it is exactly the most recent
    [MAX_MESSAGES_PER_SESSION] of them as long as fewer than
    [MAX_MEMORY_SESSIONS] distinct ids were used, so that no session was
    removed by the clean-up step.  After 42 turns numbered from 0 for one
    session, 20 are stored and the first of them is turn 22. *)
Theorem session_history_bounded_and_recent :
  (forall env calls sid,
     let st := run_saves env calls initial_state in
     length (stored sid st) <= MAX_MESSAGES_PER_SESSION /\
     (exists older, appended sid calls = older ++ stored sid st) /\
     (sid <> "" ->
      length (nodup string_dec (map save_id calls)) < MAX_MEMORY_SESSIONS ->
      stored sid st = last_n MAX_MESSAGES_PER_SESSION (appended sid calls))) /\
  (forall env,
     let st := run_saves env turns_42 initial_state in
     length (get_session_history "abc" st) = 20 /\
     hd_error (stored "abc" st) = Some ("user", "turn 22")).
Proof.
  split.
  - intros env calls sid st. split; [|split].
    + subst st. induction calls as [|[[sid' r] c] calls IH] using rev_ind.
      * destruct (string_dec sid "") as [->|Hs]; simpl; [lia|].
        rewrite stored_lookup by assumption. simpl. lia.
      * rewrite run_saves_snoc. now apply stored_length_save.
    + subst st. induction calls as [|[[sid' r] c] calls IH] using rev_ind.
      * exists []. destruct (string_dec sid "") as [->|Hs]; [reflexivity|].
        now rewrite stored_lookup.
      * rewrite run_saves_snoc. now apply stored_suffix_save.
    + intros Hs Hlt.
      destruct (no_eviction_invariant env calls Hlt) as (_ & _ & H).
      exact (H sid Hs).
  - intros env st.
    assert (H : stored "abc" st
                = last_n MAX_MESSAGES_PER_SESSION (appended "abc" turns_42)).
    { assert (Hlt : length (nodup string_dec (map save_id turns_42))
                     < MAX_MEMORY_SESSIONS) by (vm_compute; lia).
      destruct (no_eviction_invariant env turns_42 Hlt) as (_ & _ & H).
      apply H. discriminate. }
    clearbody st. split.
    + transitivity (length (stored "abc" st)).
      * unfold stored. now rewrite length_map.
      * rewrite H. reflexivity.
    + rewrite H. reflexivity.
Qed.

Lemma session_history_bounded_and_recent_witness :
  stored "abc" (run_saves env_ok turns_42 initial_state)
  = last_n MAX_MESSAGES_PER_SESSION (appended "abc" turns_42) /\
  nth_error (appended "abc" turns_42) 22 = Some ("user", "turn 22").
Proof.
  split; [|reflexivity].
  refine (proj2 (proj2 (proj1 session_history_bounded_and_recent
                          env_ok turns_42 "abc")) _ _).
  - discriminate.
  - vm_compute. lia.
Defined.

(** C2, as stated, fails: of 42 turns numbered from 0 the first one
    retained is turn 22, not turn 23. *)
Lemma first_retained_turn_is_not_23 :
  let st := run_saves env_ok turns_42 initial_state in
  length (stored "abc" st) = 20 /\
  hd_error (stored "abc" st) = nth_error (appended "abc" turns_42) 22 /\
  hd_error (stored "abc" st) <> nth_error (appended "abc" turns_42) 23.
Proof. vm_compute. repeat split. discriminate. Qed.

End SessionClaims.

(** ** Chat turns *)

Section ChatFacts.
Import Py Main Obs.
Variable env : Env.

Lemma save_trace sid r c st :
  trace (save_to_session env sid r c st) = trace st.
Proof.
  unfold save_to_session. destruct (String.eqb sid ""); [reflexivity|].
  now destruct (init_if_new env sid _ _).
Qed.

Lemma remember_ok request answer st :
  exists st',
    remember env request answer st = (Ok tt, st') /\ trace st' = trace st.
Proof.
  unfold remember. destruct (session_id request) as [sid|].
  - destruct (nonempty sid).
    + eexists. split; [reflexivity|]. cbn. now rewrite !save_trace.
    + now exists st.
  - now exists st.
Qed.

Lemma remember_without_session request answer st :
  session_id request = None -> remember env request answer st = (Ok tt, st).
Proof. intros H. unfold remember. now rewrite H. Qed.

Lemma new_events_app st st' evs :
  trace st' = trace st ++ evs -> new_events st st' = evs.
Proof.
  intros H. unfold new_events. rewrite H, skipn_app, skipn_all, Nat.sub_diag.
  reflexivity.
Qed.

Lemma first_match_first q table :
  (exists t, In t (keys table) /\ contains t q = true) ->
  exists pre trigger canned post,
    table = pre ++ (trigger, canned) :: post /\
    contains trigger q = true /\
    (forall t, In t (keys pre) -> contains t q = false) /\
    first_match q table = Some canned.
Proof.
  induction table as [|[t0 c0] table IH]; intros (t & Hin & Ht).
  - destruct Hin.
  - destruct (contains t0 q) eqn:E.
    + exists [], t0, c0, table. simpl. rewrite E. repeat split; auto.
      intros ? [].
    + destruct IH as (pre & trigger & canned & post & -> & H1 & H2 & H3).
      { simpl in Hin. destruct Hin as [<-|Hin]; [congruence|]. now exists t. }
      exists ((t0, c0) :: pre), trigger, canned, post. simpl. rewrite E.
      repeat split; auto. intros t' [<-|H']; auto.
Qed.

Lemma first_match_none q table :
  first_match q table = None ->
  forall t, In t (keys table) -> contains t q = false.
Proof.
  induction table as [|[t0 c0] table IH]; simpl; [tauto|].
  destruct (contains t0 q) eqn:E; [discriminate|].
  intros H t [<-|Hin]; auto.
Qed.

Lemma canned_nonempty t c : In (t, c) EASTER_EGGS -> nonempty c = true.
Proof.
  intros H.
  assert (Hall : forallb (fun kv => nonempty (snd kv)) EASTER_EGGS = true)
    by reflexivity.
  rewrite forallb_forall in Hall. exact (Hall _ H).
Qed.

(** The state a failed or successful retrieval leaves behind. *)
Lemma search_cases query_embedding top_k st :
  exists docs evs,
    search_knowledge_base env query_embedding top_k st =
    (Ok docs,
     mkState (conversation_memory st) (ticks st) (trace st ++ evs)) /\
    match match_documents env query_embedding top_k with
    | Raise e =>
        docs = [] /\
        evs = [Search query_embedding top_k;
               Print ("Search error: " ++ exn_str e)%string]
    | Ok data =>
        docs = match data with Some (d :: l) => d :: l | _ => [] end /\
        evs = [Search query_embedding top_k]
    end.
Proof.
  unfold search_knowledge_base, try_except, call, bind, emit, of_result, ret.
  cbn [fst snd].
  destruct (match_documents env query_embedding top_k) as [data|e].
  - eexists _, _. split; [reflexivity|]. split; reflexivity.
  - eexists _, _. split; [cbn; rewrite <- app_assoc; reflexivity|].
    split; reflexivity.
Qed.

End ChatFacts.

Section TurnFacts.
Import Py Main Obs.
Variable env : Env.

Lemma bind_ok {A B} (m : M A) (k : A -> M B) st a st' :
  m st = (Ok a, st') -> bind m k st = k a st'.
Proof. intros H. unfold bind. now rewrite H. Qed.

Lemma bind_raise {A B} (m : M A) (k : A -> M B) st e st' :
  m st = (Raise e, st') -> bind m k st = (Raise e, st').
Proof. intros H. unfold bind. now rewrite H. Qed.

(** Every way a turn past the easter-egg check can go. *)
Lemma chat_rag_cases request st :
  let q := query request in
  match embed_content env q with
  | Raise e => chat_rag env request st = (Raise e, with_events st [Embed q])
  | Ok v =>
      exists docs evs,
        search_knowledge_base env v 5 (with_events st [Embed q]) =
        (Ok docs, with_events st (Embed q :: evs)) /\
        match match_documents env v 5 with
        | Raise e =>
            docs = [] /\
            evs = [Search v 5; Print ("Search error: " ++ exn_str e)%string]
        | Ok data =>
            docs = match data with Some (d :: l) => d :: l | _ => [] end /\
            evs = [Search v 5]
        end /\
        let sp := fst (build_system_prompt docs (language_or_en request)) in
        let cits := snd (build_system_prompt docs (language_or_en request)) in
        match combined_history_of request st with
        | None =>
            chat_rag env request st =
            (Raise not_subscriptable, with_events st (Embed q :: evs))
        | Some h =>
            let p := full_prompt_of sp (last_n 6 h) q in
            let st2 := with_events st (Embed q :: evs ++ [Generate p]) in
            match generate_content env p with
            | Ok text =>
                chat_rag env request st =
                (Ok (mkChatReply text cits false (session_id request)
                       (Some (language request))),
                 snd (remember env request text st2))
            | Raise e =>
                chat_rag env request st =
                if is_rate_limit (exn_str e)
                then (Ok (apology_reply request), st2)
                else (Raise e, st2)
            end
        end
  end.
Proof.
  intros q. unfold chat_rag.
  erewrite bind_ok by reflexivity.
  unfold get_query_embedding, call. fold q.
  destruct (embed_content env q) as [v|e].
  2:{ erewrite bind_raise; [reflexivity|].
      erewrite bind_ok by reflexivity. reflexivity. }
  erewrite bind_ok; [|erewrite bind_ok by reflexivity; reflexivity].
  change (mkState (conversation_memory st) (ticks st) (trace st ++ [Embed q]))
    with (with_events st [Embed q]).
  destruct (search_cases env v 5 (with_events st [Embed q]))
    as (docs & evs & Hs & Hevs).
  exists docs, evs.
  assert (Hst : mkState (conversation_memory (with_events st [Embed q]))
                  (ticks (with_events st [Embed q]))
                  (trace (with_events st [Embed q]) ++ evs)
                = with_events st (Embed q :: evs)).
  { unfold with_events. cbn. now rewrite <- app_assoc. }
  rewrite Hst in Hs. split; [exact Hs|]. split; [exact Hevs|]. clear Hevs.
  erewrite bind_ok by exact Hs.
  destruct (build_system_prompt docs (language_or_en request)) as [sp cits].
  cbn [fst snd]. cbv zeta.
  change (match session_history_of request st with
          | [] => conversation_history request
          | _ :: _ => Some (map turn_msg (session_history_of request st))
          end) with (combined_history_of request st).
  destruct (combined_history_of request st) as [h|].
  2:{ erewrite bind_raise; reflexivity. }
  erewrite bind_ok by reflexivity.
  set (p := full_prompt_of sp (last_n 6 h) q).
  assert (Hst2 : mkState (conversation_memory (with_events st (Embed q :: evs)))
                   (ticks (with_events st (Embed q :: evs)))
                   (trace (with_events st (Embed q :: evs)) ++ [Generate p])
                 = with_events st (Embed q :: evs ++ [Generate p])).
  { unfold with_events. cbn. now rewrite <- app_assoc. }
  destruct (generate_content env p) as [text|e] eqn:Hg.
  - erewrite bind_ok.
    2:{ unfold try_except. erewrite bind_ok.
        2:{ erewrite bind_ok by reflexivity. unfold of_result.
            rewrite Hst2. reflexivity. }
        reflexivity. }
    destruct (remember_ok env request text
                (with_events st (Embed q :: evs ++ [Generate p])))
      as (st' & Hr & _).
    erewrite bind_ok by exact Hr. rewrite Hr. reflexivity.
  - destruct (is_rate_limit (exn_str e)) eqn:Hrl.
    + erewrite bind_ok.
      2:{ unfold try_except. erewrite bind_raise.
          2:{ erewrite bind_ok by reflexivity. unfold of_result.
              rewrite Hst2. reflexivity. }
          rewrite Hrl. reflexivity. }
      reflexivity.
    + erewrite bind_raise; [reflexivity|].
      unfold try_except. erewrite bind_raise.
      2:{ erewrite bind_ok by reflexivity. unfold of_result.
          rewrite Hst2. reflexivity. }
      rewrite Hrl. reflexivity.
Qed.

End TurnFacts.

Section HandlerFacts.
Import Py Main Obs.
Variable env : Env.

Lemma first_match_in q table canned :
  first_match q table = Some canned ->
  exists t, In (t, canned) table.
Proof.
  induction table as [|[t0 c0] table IH]; simpl; [discriminate|].
  destruct (contains t0 q).
  - intros [= <-]. exists t0. now left.
  - intros H. destruct (IH H) as [t Ht]. exists t. now right.
Qed.

Lemma chat_on_egg request st egg :
  check_easter_egg (query request) = Some egg ->
  chat env request st =
  (Ok (mkChatReply egg [] true (session_id request) None),
   snd (remember env request egg st)).
Proof.
  intros H. unfold chat, try_except. rewrite H.
  destruct (first_match_in _ _ _ H) as [t Ht].
  rewrite (canned_nonempty t egg Ht).
  destruct (remember_ok env request egg st) as (st' & Hr & _).
  erewrite bind_ok by exact Hr. rewrite Hr. reflexivity.
Qed.

Lemma chat_past_eggs request st :
  check_easter_egg (query request) = None ->
  chat env request st =
  match chat_rag env request st with
  | (Ok reply, st') => (Ok reply, st')
  | (Raise e, st') =>
      (Ok (critical_reply request),
       with_events st' [Print ("Chat error: " ++ exn_str e)%string])
  end.
Proof.
  intros H. unfold chat, try_except. rewrite H.
  destruct (chat_rag env request st) as [[reply|e] st']; [reflexivity|].
  erewrite bind_ok by reflexivity. reflexivity.
Qed.

Lemma with_events_events st evs : new_events st (with_events st evs) = evs.
Proof. now apply new_events_app. Qed.

Lemma remember_events request answer st :
  trace (snd (remember env request answer st)) = trace st.
Proof.
  destruct (remember_ok env request answer st) as (st' & -> & H). exact H.
Qed.

Lemma with_events_twice st evs evs' :
  with_events (with_events st evs) evs' = with_events st (evs ++ evs').
Proof. unfold with_events. cbn. now rewrite app_assoc. Qed.

(** The generator never touches the session store. *)
Lemma generator_keeps_memory q system_prompt history st :
  conversation_memory
    (snd (generate_streaming_response env q system_prompt history st))
  = conversation_memory st.
Proof.
  unfold generate_streaming_response. destruct history as [h|]; [|reflexivity].
  destruct (send_message_stream env _ q) as [chunks [e|]]; reflexivity.
Qed.

Lemma chat_stream_cases request st :
  let q := query request in
  match embed_content env q with
  | Raise e =>
      chat_stream env request st =
      (Raise (HTTPException 500 (exn_str e)), with_events st [Embed q])
  | Ok v =>
      exists docs evs,
        search_knowledge_base env v 5 (with_events st [Embed q]) =
        (Ok docs, with_events st (Embed q :: evs)) /\
        chat_stream env request st =
        (Ok (mkStreamingResponse
               (generate_streaming_response env q
                  (fst (build_system_prompt docs "en"))
                  (conversation_history request))
               (snd (build_system_prompt docs "en"))),
         with_events st (Embed q :: evs))
  end.
Proof.
  intros q. unfold chat_stream, try_except, get_query_embedding, call. fold q.
  destruct (embed_content env q) as [v|e].
  2:{ erewrite bind_raise.
      2:{ erewrite bind_ok by reflexivity. reflexivity. }
      reflexivity. }
  destruct (search_cases env v 5 (with_events st [Embed q]))
    as (docs & evs & Hs & _).
  exists docs, evs.
  assert (Hst : mkState (conversation_memory (with_events st [Embed q]))
                  (ticks (with_events st [Embed q]))
                  (trace (with_events st [Embed q]) ++ evs)
                = with_events st (Embed q :: evs)).
  { unfold with_events. cbn. now rewrite <- app_assoc. }
  rewrite Hst in Hs. split; [exact Hs|].
  erewrite bind_ok; [|erewrite bind_ok by reflexivity; reflexivity].
  change (mkState (conversation_memory st) (ticks st) (trace st ++ [Embed q]))
    with (with_events st [Embed q]).
  erewrite bind_ok by exact Hs.
  destruct (build_system_prompt docs "en") as [sp cits]. reflexivity.
Qed.

End HandlerFacts.

Section ChatClaims.
Import Py Main Obs Scenarios.

(** C1 (the code departs from it). With [MAX_MEMORY_SESSIONS] sessions
    stored, a save to the stored session [s5] removes the oldest session
    [s0] and leaves 999 sessions; a save to the stored session [s0]
    removes that very session and re-creates it with the new message
    alone. *)
Theorem save_to_stored_session_evicts :
  live_sessions full_store = MAX_MEMORY_SESSIONS /\
  dict_mem "s5" (conversation_memory full_store) = true /\
  oldest (conversation_memory full_store) = Some "s0" /\
  (let st := save_to_session env_ok "s5" "user" "again" full_store in
   live_sessions st = 999 /\
   dict_mem "s0" (conversation_memory st) = false) /\
  (let st := save_to_session env_ok "s0" "user" "again" full_store in
   stored "s0" full_store = [("user", "hi")] /\
   stored "s0" st = [("user", "again")]).
Proof. vm_compute. repeat split. Qed.

(** C4. When the lowered, stripped query contains a configured trigger,
    [chat] answers with the canned text of the first table entry whose
    trigger occurs in it, with no citations and the easter-egg flag, the
    only state change being the two turns saved for a request that has a
    session id; nothing is added to the trace, so no embedding, search or
    generation call is made. *)
Theorem easter_egg_short_circuit env request st :
  (exists trigger,
     In trigger (keys EASTER_EGGS) /\
     contains trigger (strip (lower (query request))) = true) ->
  exists pre trigger canned post,
    EASTER_EGGS = pre ++ (trigger, canned) :: post /\
    contains trigger (strip (lower (query request))) = true /\
    (forall t, In t (keys pre) ->
       contains t (strip (lower (query request))) = false) /\
    chat env request st =
    (Ok (mkChatReply canned [] true (session_id request) None),
     snd (remember env request canned st)) /\
    new_events st (snd (chat env request st)) = [].
Proof.
  intros H.
  destruct (first_match_first _ _ H)
    as (pre & trigger & canned & post & Ht & Hc & Hpre & Hm).
  exists pre, trigger, canned, post.
  assert (Hchat := chat_on_egg env request st canned Hm).
  repeat split; try assumption.
  rewrite Hchat. cbn [snd]. apply new_events_app.
  now rewrite remember_events, app_nil_r.
Qed.

Lemma easter_egg_short_circuit_witness :
  exists pre trigger canned post,
    EASTER_EGGS = pre ++ (trigger, canned) :: post /\
    contains trigger (strip (lower (query charon_request))) = true /\
    (forall t, In t (keys pre) ->
       contains t (strip (lower (query charon_request))) = false) /\
    chat env_ok charon_request initial_state =
    (Ok (mkChatReply canned [] true (session_id charon_request) None),
     snd (remember env_ok charon_request canned initial_state)) /\
    new_events initial_state (snd (chat env_ok charon_request initial_state))
    = [].
Proof.
  apply (easter_egg_short_circuit env_ok charon_request initial_state).
  exists "what is charon". split; [|reflexivity].
  simpl. tauto.
Defined.

(** C5. In a [chat] turn whose generation call raised an error that
    mentions [ResourceExhausted] or [429], the reply is the fixed
    apology and the session store is what it was: neither the query nor
    the apology is saved. *)
Theorem rate_limited_turn_not_persisted env request st prompt e :
  In (Generate prompt) (new_events st (snd (chat env request st))) ->
  generate_content env prompt = Raise e ->
  is_rate_limit (exn_str e) = true ->
  fst (chat env request st) = Ok (apology_reply request) /\
  response (apology_reply request) = RATE_LIMIT_APOLOGY /\
  conversation_memory (snd (chat env request st)) = conversation_memory st.
Proof.
  intros Hin Hgen Hrl.
  destruct (check_easter_egg (query request)) as [egg|] eqn:Hegg.
  { exfalso. rewrite (chat_on_egg env request st egg Hegg) in Hin.
    cbn [snd] in Hin. rewrite (new_events_app _ _ []) in Hin; [exact Hin|].
    now rewrite remember_events, app_nil_r. }
  rewrite (chat_past_eggs env request st Hegg) in *.
  pose proof (chat_rag_cases env request st) as Hc. cbv zeta in Hc.
  destruct (embed_content env (query request)) as [v|e0].
  2:{ exfalso. rewrite Hc in Hin. cbn [snd] in Hin.
      rewrite with_events_twice, with_events_events in Hin.
      simpl in Hin. intuition discriminate. }
  destruct Hc as (docs & evs & _ & Hevs & Hc).
  assert (Hno : ~ In (Generate prompt) (Embed (query request) :: evs)).
  { destruct (match_documents env v 5); destruct Hevs as [_ ->];
      simpl; intuition discriminate. }
  destruct (combined_history_of request st) as [h|].
  2:{ exfalso. rewrite Hc in Hin. cbn [snd] in Hin.
      rewrite with_events_twice, with_events_events in Hin.
      rewrite in_app_iff in Hin. simpl in Hin, Hno.
      intuition discriminate. }
  set (p := full_prompt_of _ _ _) in Hc.
  assert (Hev : new_events st
                  (snd match chat_rag env request st with
                       | (Ok reply, st') => (Ok reply, st')
                       | (Raise e1, st') =>
                           (Ok (critical_reply request),
                            with_events st'
                              [Print ("Chat error: " ++ exn_str e1)%string])
                       end)
                = Embed (query request) :: evs ++ [Generate p]
                  \/ exists line,
                       new_events st
                         (snd match chat_rag env request st with
                              | (Ok reply, st') => (Ok reply, st')
                              | (Raise e1, st') =>
                                  (Ok (critical_reply request),
                                   with_events st'
                                     [Print ("Chat error: " ++ exn_str e1)%string])
                              end)
                       = (Embed (query request) :: evs ++ [Generate p])
                           ++ [Print line]).
  { destruct (generate_content env p) as [text|e1].
    - left. rewrite Hc. cbn [snd]. apply new_events_app.
      now rewrite remember_events.
    - destruct (is_rate_limit (exn_str e1)); rewrite Hc; cbn [snd].
      + left. apply with_events_events.
      + right. eexists. rewrite with_events_twice. apply with_events_events. }
  assert (Hpp : prompt = p).
  { destruct Hev as [Hev|[line Hev]]; rewrite Hev in Hin;
      rewrite ?app_comm_cons, !in_app_iff in Hin; simpl in Hin, Hno;
      intuition; try discriminate; congruence. }
  subst prompt. rewrite Hgen, Hrl in Hc. rewrite Hc. repeat split.
Qed.

Lemma rate_limited_turn_not_persisted_witness :
  fst (chat env_rate_limited projects_request initial_state)
  = Ok (apology_reply projects_request) /\
  response (apology_reply projects_request) = RATE_LIMIT_APOLOGY /\
  conversation_memory (snd (chat env_rate_limited projects_request initial_state))
  = conversation_memory initial_state.
Proof.
  apply (rate_limited_turn_not_persisted env_rate_limited projects_request
           initial_state
           (full_prompt_of (fst (build_system_prompt [] "en")) []
              (query projects_request))
           (Exception "429 ResourceExhausted: quota exceeded")).
  - apply (nth_error_In _ 2). vm_compute. reflexivity.
  - reflexivity.
  - vm_compute. reflexivity.
Defined.




(** C10. Whatever the request, its session id included, the streaming
    endpoint leaves [conversation_memory] exactly as it found it, in the
    handler and in the generator it returns: no session is created,
    appended to, trimmed or removed.  [chat], by contrast, saves the
    turn: a first answered turn for session [abc] stores the query and
    the answer. *)
Theorem streaming_leaves_sessions_alone :
  (forall env request st,
     conversation_memory (snd (chat_stream env request st))
     = conversation_memory st /\
     conversation_memory (snd (serve_chat_stream env request st))
     = conversation_memory st) /\
  (forall env q system_prompt history st,
     conversation_memory
       (snd (generate_streaming_response env q system_prompt history st))
     = conversation_memory st) /\
  stored "abc" (snd (chat env_ok projects_request initial_state))
  = [("user", "Tell me about his projects");
     ("assistant", "A generated answer.")].
Proof.
  split; [|split; [apply generator_keeps_memory | reflexivity]].
  intros env request st.
  pose proof (chat_stream_cases env request st) as Hc. cbv zeta in Hc.
  unfold serve_chat_stream.
  destruct (embed_content env (query request)) as [v|e].
  - destruct Hc as (docs & evs & _ & ->). cbn [snd stream_body x_citations].
    split; [reflexivity|].
    pose proof (generator_keeps_memory env (query request)
                  (fst (build_system_prompt docs "en"))
                  (conversation_history request)
                  (with_events st (Embed (query request) :: evs))) as Hg.
    destruct (generate_streaming_response env _ _ _ _) as [[events failure] st2].
    exact Hg.
  - rewrite Hc. split; reflexivity.
Qed.

End ChatClaims.

(** ** The prompt builder *)

Section PromptFacts.
Import Py Main Obs.

Lemma str_app_assoc (a b c : string) :
  ((a ++ b) ++ c = a ++ b ++ c)%string.
Proof. induction a as [|x a IH]; simpl; [reflexivity | now rewrite IH]. Qed.

Lemma str_app_empty (a : string) : (a ++ "")%string = a.
Proof. induction a as [|x a IH]; simpl; [reflexivity | now rewrite IH]. Qed.

Lemma prefix_before_char p x c b :
  has_char c p = false ->
  prefix p (x ++ String c b)%string = prefix p x.
Proof.
  revert x. induction p as [|a p IH]; intros x H.
  - now destruct x.
  - simpl in H. apply orb_false_iff in H. destruct H as [Hac Hp].
    destruct x as [|y x]; simpl.
    + destruct (ascii_dec a c) as [->|]; [|reflexivity].
      now rewrite Ascii.eqb_refl in Hac.
    + destruct (ascii_dec a y); [now apply IH | reflexivity].
Qed.

(** Occurrences of a text cannot straddle a character it lacks. *)
Lemma occurrences_split p a c b :
  has_char c p = false ->
  occurrences p (a ++ String c b)%string
  = occurrences p a + occurrences p b.
Proof.
  intros H. induction a as [|y a IH].
  - simpl (("" ++ String c b)%string).
    change (occurrences p (String c b))
      with ((if prefix p (String c b) then 1 else 0) + occurrences p b).
    change (occurrences p "") with ((if prefix p "" then 1 else 0) + 0).
    rewrite <- (prefix_before_char p "" c b H). simpl (("" ++ _)%string). lia.
  - change ((String y a ++ String c b)%string)
      with (String y (a ++ String c b)%string).
    change (occurrences p (String y (a ++ String c b)%string))
      with ((if prefix p (String y (a ++ String c b)%string) then 1 else 0)
            + occurrences p (a ++ String c b)%string).
    change (occurrences p (String y a))
      with ((if prefix p (String y a) then 1 else 0) + occurrences p a).
    rewrite IH.
    change (String y (a ++ String c b)%string)
      with ((String y a ++ String c b)%string).
    rewrite (prefix_before_char p (String y a) c b H). lia.
Qed.

Lemma context_loop_citations docs : forall i ctx cits,
  snd (context_loop i docs ctx cits) = cits ++ flat_map doc_citations docs.
Proof.
  induction docs as [|doc docs IH]; intros i ctx cits; simpl.
  - now rewrite app_nil_r.
  - now rewrite IH, app_assoc.
Qed.

Lemma build_citations docs lang :
  snd (build_system_prompt docs lang) = flat_map doc_citations docs.
Proof.
  unfold build_system_prompt.
  pose proof (context_loop_citations docs 0 "" []) as H.
  destruct (context_loop 0 docs "" []) as [ctx cits]. exact H.
Qed.

Lemma build_prompt_text docs lang :
  fst (build_system_prompt docs lang)
  = (PERSONA_IDENTITY ++ context_text_of docs ++ PERSONA_RULES
       ++ language_instruction lang ++ nl)%string.
Proof.
  unfold build_system_prompt, context_text_of.
  now destruct (context_loop 0 docs "" []).
Qed.

End PromptFacts.

Section PersonaFacts.
Import Py Main Obs.

Lemma dict_get_In {V} k (d : dict V) v : dict_get k d = Some v -> In (k, v) d.
Proof.
  induction d as [|[k0 v0] d IH]; simpl; [discriminate|].
  destruct (String.eqb k k0) eqn:E.
  - apply String.eqb_eq in E; subst. intros [= ->]. now left.
  - auto.
Qed.

(** The retrieved text sits between two line breaks of the persona
    text, so what a line-break-free text counts in the prompt is what it
    counts in the prompt without documents plus what it counts in the
    retrieved text. *)
Lemma persona_occurrences p ctx li :
  has_char (ascii_of_nat 10) p = false ->
  occurrences p (PERSONA_IDENTITY ++ ctx ++ PERSONA_RULES ++ li ++ nl)%string
  + occurrences p ""
  = occurrences p (PERSONA_IDENTITY ++ "" ++ PERSONA_RULES ++ li ++ nl)%string
    + occurrences p ctx.
Proof.
  intros H.
  assert (Hi : exists body, PERSONA_IDENTITY
                            = (body ++ String (ascii_of_nat 10) "")%string).
  { exists (substring 0 (String.length PERSONA_IDENTITY - 1) PERSONA_IDENTITY).
    vm_compute. reflexivity. }
  assert (Hr : exists body, PERSONA_RULES = String (ascii_of_nat 10) body).
  { eexists. vm_compute. reflexivity. }
  destruct Hi as [pi Hi], Hr as [pr Hr]. rewrite Hi, Hr.
  rewrite !str_app_assoc.
  change ((String (ascii_of_nat 10) "" ++ ?x)%string)
    with (String (ascii_of_nat 10) x).
  cbn [append].
  rewrite !(occurrences_split p pi) by assumption.
  rewrite (occurrences_split p ctx) by assumption.
  change (String (ascii_of_nat 10) (pr ++ li ++ nl)%string)
    with (("" ++ String (ascii_of_nat 10) (pr ++ li ++ nl))%string).
  rewrite (occurrences_split p "") by assumption. lia.
Qed.

Lemma no_template_no_instruction lang :
  lang = "en" \/ dict_get lang LANGUAGE_PROMPTS = None ->
  language_instruction lang = "".
Proof.
  unfold language_instruction, dict_mem. intros [-> | ->]; [reflexivity|].
  now rewrite andb_false_r.
Qed.

End PersonaFacts.

Section PromptClaims.
Import Py Main Obs Scenarios.

(** C8, as stated, fails: the [ref] of a project's citation is not the
    slug of its name but [project_] followed by that slug. *)
Lemma citation_ref_is_not_the_bare_slug :
  snd (build_system_prompt [project_doc] "en")
  = [mkCitation "project" "My App" "project_my_app"
       "https://example.org/my-app"] /\
  slug "My App" = "my_app" /\
  "project_my_app" <> slug "My App".
Proof. vm_compute. repeat split. discriminate. Qed.

(** C8 (amended). The citations are those of the documents whose
    metadata type is [project], one each, in retrieval order, with type
    [project], the document's name ([Unknown Project] without one) and
    its url (empty without one); no other document yields a citation.
    When the names of the project documents are ASCII text, the [ref] of
    each citation is [project_] followed by the lower-case,
    space-to-underscore slug of the name; in particular a project
    document named [n], [n] being ASCII text, is cited with the ref
    [project_] followed by the slug of [n]. *)
Theorem project_citations :
  (forall docs lang,
     map (fun c => (cit_type c, cit_name c, cit_url c))
       (snd (build_system_prompt docs lang))
     = map (fun doc =>
              ("project",
               get_default "name" "Unknown Project" (metadata_of doc),
               get_default "url" "" (metadata_of doc)))
         (filter (fun doc => String.eqb (doc_type_of doc) "project") docs)) /\
  (forall docs lang,
     (forall doc,
        In doc docs ->
        String.eqb (doc_type_of doc) "project" = true ->
        isascii (get_default "name" "" (metadata_of doc)) = true) ->
     snd (build_system_prompt docs lang)
     = map (fun doc =>
              mkCitation "project"
                (get_default "name" "Unknown Project" (metadata_of doc))
                ("project_"
                   ++ replace_char " " "_"
                        (lower (get_default "name" "" (metadata_of doc))))
                (get_default "url" "" (metadata_of doc)))
         (filter (fun doc => String.eqb (doc_type_of doc) "project") docs)) /\
  (forall docs lang doc m n u,
     In doc docs ->
     doc_metadata doc = Some m ->
     dict_get "type" m = Some "project" ->
     dict_get "name" m = Some n ->
     dict_get "url" m = Some u ->
     isascii n = true ->
     In (mkCitation "project" n ("project_" ++ slug n) u)
        (snd (build_system_prompt docs lang))).
Proof.
  assert (H1 : forall docs lang,
     snd (build_system_prompt docs lang)
     = map (fun doc =>
              mkCitation "project"
                (get_default "name" "Unknown Project" (metadata_of doc))
                ("project_"
                   ++ replace_char " " "_"
                        (lower (get_default "name" "" (metadata_of doc))))
                (get_default "url" "" (metadata_of doc)))
         (filter (fun doc => String.eqb (doc_type_of doc) "project") docs)).
  { intros docs lang. rewrite build_citations.
    induction docs as [|doc docs IH]; [reflexivity|].
    cbn [flat_map filter]. unfold doc_citations at 1.
    destruct (String.eqb (doc_type_of doc) "project"); cbn [map app];
      now rewrite IH. }
  split; [|split].
  - intros docs lang. rewrite H1, map_map. reflexivity.
  - intros docs lang _. apply H1.
  - intros docs lang doc m n u Hin Hm Ht Hn Hu _. rewrite H1.
    apply in_map_iff. exists doc. split.
    + unfold metadata_of, get_default. rewrite Hm, Hn, Hu. reflexivity.
    + apply filter_In. split; [assumption|].
      unfold doc_type_of, metadata_of, get_default. now rewrite Hm, Ht.
Qed.

Lemma project_citations_witness :
  In (mkCitation "project" "My App" ("project_" ++ slug "My App")
        "https://example.org/my-app")
     (snd (build_system_prompt [german_doc; project_doc] "de")).
Proof.
  refine (proj2 (proj2 project_citations) [german_doc; project_doc] "de"
            project_doc _ "My App" "https://example.org/my-app" _ eq_refl
            eq_refl eq_refl eq_refl eq_refl).
  right. now left.
Defined.

(** C9, as stated, fails: a retrieved text that quotes the German
    directive makes the German prompt contain it twice. *)
Lemma quoted_directive_occurs_twice :
  dict_get "de" LANGUAGE_PROMPTS = Some "Antworte professionell auf Deutsch." /\
  occurrences "Antworte professionell auf Deutsch."
    (fst (build_system_prompt [german_doc] "de")) = 2.
Proof. vm_compute. split; reflexivity. Qed.

(** C9 (amended). For [en] and for a code without a template the
    builder appends no language block: the prompt is the persona text
    around the retrieved text, and the block's heading occurs in it only
    where the retrieved text has it.  For another code with a template
    the builder appends the directive once: it occurs in the prompt
    exactly once more than in the retrieved text, hence exactly once
    when no retrieved document contains it. *)
Theorem language_directive_appended_once :
  (forall docs lang,
     lang = "en" \/ dict_get lang LANGUAGE_PROMPTS = None ->
     fst (build_system_prompt docs lang)
     = (PERSONA_IDENTITY ++ context_text_of docs ++ PERSONA_RULES ++ nl)%string
     /\ occurrences "## LANGUAGE INSTRUCTION"
          (fst (build_system_prompt docs lang))
        = occurrences "## LANGUAGE INSTRUCTION" (context_text_of docs)) /\
  (forall docs lang directive,
     lang <> "en" ->
     dict_get lang LANGUAGE_PROMPTS = Some directive ->
     occurrences directive (fst (build_system_prompt docs lang))
     = 1 + occurrences directive (context_text_of docs)).
Proof.
  split.
  - intros docs lang H. rewrite build_prompt_text.
    rewrite (no_template_no_instruction lang H). split; [reflexivity|].
    pose proof (persona_occurrences "## LANGUAGE INSTRUCTION"
                  (context_text_of docs) "" eq_refl) as Ho.
    assert (H0 : occurrences "## LANGUAGE INSTRUCTION"
                   (PERSONA_IDENTITY ++ "" ++ PERSONA_RULES ++ "" ++ nl)%string
                 = 0) by (vm_compute; reflexivity).
    rewrite H0 in Ho. cbn [occurrences prefix] in Ho. lia.
  - intros docs lang directive Hne Hget. rewrite build_prompt_text.
    assert (Hcase :
      has_char (ascii_of_nat 10) directive = false /\
      occurrences directive "" = 0 /\
      occurrences directive
        (PERSONA_IDENTITY ++ "" ++ PERSONA_RULES
           ++ language_instruction lang ++ nl)%string = 1).
    { apply dict_get_In in Hget. simpl in Hget.
      repeat (destruct Hget as [Hget|Hget];
              [injection Hget as <- <-; vm_compute; repeat split |]).
      destruct Hget. }
    destruct Hcase as (Hnl & He & H1).
    pose proof (persona_occurrences directive (context_text_of docs)
                  (language_instruction lang) Hnl) as Ho.
    rewrite He, H1 in Ho. lia.
Qed.

Lemma language_directive_appended_once_witness :
  occurrences "Antworte professionell auf Deutsch."
    (fst (build_system_prompt [project_doc] "de"))
  = 1 + occurrences "Antworte professionell auf Deutsch."
          (context_text_of [project_doc]) /\
  occurrences "Antworte professionell auf Deutsch."
    (context_text_of [project_doc]) = 0 /\
  fst (build_system_prompt [project_doc] "xx")
  = (PERSONA_IDENTITY ++ context_text_of [project_doc] ++ PERSONA_RULES
       ++ nl)%string.
Proof.
  split; [|split].
  - refine (proj2 language_directive_appended_once [project_doc] "de"
              "Antworte professionell auf Deutsch." _ eq_refl).
    discriminate.
  - vm_compute. reflexivity.
  - refine (proj1 (proj1 language_directive_appended_once [project_doc] "xx"
                     _)).
    right. reflexivity.
Defined.

End PromptClaims.

(** ** Ingestion *)

Section UploadFacts.
Import Py Maintain KbObs.
Variable env : Env.

Lemma dict_get_set_same {V} k (v : V) d : dict_get k (dict_set k v d) = Some v.
Proof.
  induction d as [|[k0 v0] d IH]; simpl.
  - now rewrite String.eqb_refl.
  - destruct (String.eqb k k0) eqn:E; simpl.
    + now rewrite String.eqb_refl.
    + now rewrite E.
Qed.

Lemma dict_get_set_other {V} k k' (v : V) d :
  k <> k' -> dict_get k (dict_set k' v d) = dict_get k d.
Proof.
  intros Hne. apply String.eqb_neq in Hne.
  induction d as [|[k0 v0] d IH]; simpl.
  - now rewrite Hne.
  - destruct (String.eqb k' k0) eqn:E; simpl.
    + apply String.eqb_eq in E; subst k0. now rewrite Hne.
    + now rewrite IH.
Qed.

Lemma new_lines_app st st' added :
  log st' = log st ++ added -> new_lines st st' = added.
Proof.
  intros H. unfold new_lines.
  now rewrite H, skipn_app, skipn_all, Nat.sub_diag.
Qed.

(** Every way an upload can go. *)
Lemma upload_cases source_id content metadata st :
  let purge_line :=
    match delete_raises env (calls st) source_id with
    | None => OldRecordsPurged
    | Some e => PurgeWarning e
    end in
  let head := [Processing source_id; purge_line; GeneratingEmbedding] in
  upload_knowledge env source_id content metadata st =
  match embed_content env (S (calls st)) content with
  | Raise e =>
      (false,
       mkState (after_purge env source_id st) (2 + calls st)
         (log st ++ head ++ [GeminiApiError e; EmbeddingFailed]))
  | Ok v =>
      match insert_raises env (2 + calls st)
              (payload_of source_id content metadata v) with
      | None =>
          (true,
           mkState (after_purge env source_id st
                      ++ [payload_of source_id content metadata v])
             (3 + calls st) (log st ++ head ++ [UploadSuccess]))
      | Some e =>
          (false,
           mkState (after_purge env source_id st) (3 + calls st)
             (log st ++ head ++ [InsertFailed e]))
      end
  end.
Proof.
  unfold upload_knowledge, purge, get_embedding, after_purge, payload_of,
    bind, print, next_call, set_documents, ret.
  cbn [fst snd documents calls log Nat.add].
  destruct (delete_raises env (calls st) source_id) as [e0|];
    cbn [fst snd documents calls log];
    (destruct (embed_content env (S (calls st)) content) as [v|e];
     cbn [fst snd documents calls log];
     [destruct (insert_raises env (S (S (calls st))) _) as [e1|];
      cbn [fst snd documents calls log] | ]);
    rewrite <- ?app_assoc; reflexivity.
Qed.

End UploadFacts.

Section SyncFacts.
Import Py Maintain KbObs.
Variable env : Env.

Lemma after_purge_incl source_id st :
  incl (after_purge env source_id st) (documents st).
Proof.
  unfold after_purge. destruct (delete_raises env (calls st) source_id).
  - apply incl_refl.
  - intros r Hr. now apply filter_In in Hr.
Qed.

(** What an upload adds to the log: its announcement first, and a
    success line exactly when it returns [True]. *)
Lemma upload_log source_id content metadata st :
  exists added,
    log (snd (upload_knowledge env source_id content metadata st))
    = log st ++ added /\
    processed added = [source_id] /\
    successes added
    = if fst (upload_knowledge env source_id content metadata st)
      then 1 else 0.
Proof.
  rewrite (upload_cases env source_id content metadata st). cbv zeta.
  destruct (embed_content env (S (calls st)) content) as [v|e].
  - destruct (insert_raises env (2 + calls st) _) as [e1|];
      eexists; (split; [reflexivity|]);
      destruct (delete_raises env (calls st) source_id); split; reflexivity.
  - eexists; (split; [reflexivity|]);
      destruct (delete_raises env (calls st) source_id); split; reflexivity.
Qed.

Lemma processed_app l l' : processed (l ++ l') = processed l ++ processed l'.
Proof. unfold processed. now rewrite flat_map_app. Qed.

Lemma successes_app l l' : successes (l ++ l') = successes l + successes l'.
Proof. unfold successes. now rewrite filter_app, length_app. Qed.

(** The loop over the listing: forks are passed over, every other
    repository is uploaded under its key, and the count grows by the
    uploads that succeeded. *)
Lemma sync_repos_log repos : forall synced st,
  exists added,
    log (snd (sync_repos env repos synced st)) = log st ++ added /\
    processed added
    = map github_source_id (filter (fun r => negb (fork r)) repos) /\
    fst (sync_repos env repos synced st) = synced + successes added.
Proof.
  induction repos as [|repo repos IH]; intros synced st.
  - exists []. cbn. now rewrite app_nil_r, Nat.add_0_r.
  - cbn [sync_repos filter]. destruct (fork repo); cbn [negb]; [apply IH|].
    unfold bind.
    destruct (upload_log (github_source_id repo) (github_content repo)
                (github_metadata repo) st) as (added1 & Hl1 & Hp1 & Hs1).
    destruct (upload_knowledge env (github_source_id repo)
                (github_content repo) (github_metadata repo) st)
      as [uploaded st1].
    cbn [fst snd] in *.
    destruct (IH (if uploaded then S synced else synced) st1)
      as (added2 & Hl2 & Hp2 & Hs2).
    exists (added1 ++ added2). rewrite Hl2, Hl1, app_assoc.
    split; [reflexivity|]. split.
    + rewrite processed_app, Hp1, Hp2. reflexivity.
    + rewrite Hs2, successes_app, Hs1. destruct uploaded; lia.
Qed.

Lemma sync_github_log st repos :
  github_repos env (calls st) = Ok repos ->
  exists added,
    new_lines st (snd (sync_github env st)) = added /\
    processed added
    = map github_source_id (filter (fun r => negb (fork r)) repos) /\
    fst (sync_github env st) = successes added.
Proof.
  intros H. unfold sync_github, bind, print, next_call, ret.
  cbn [fst snd calls]. rewrite H.
  set (st0 := mkState _ _ _).
  destruct (sync_repos_log repos 0 st0) as (added & Hl & Hp & Hs).
  destruct (sync_repos env repos 0 st0) as [synced st1]. cbn [fst snd] in *.
  exists (SyncingGithub :: added ++ [SyncedGithub synced]).
  split; [|split].
  - apply new_lines_app. cbn [log]. rewrite Hl. subst st0. cbn [log].
    rewrite <- !app_assoc. reflexivity.
  - change (SyncingGithub :: added ++ [SyncedGithub synced])
      with ([SyncingGithub] ++ added ++ [SyncedGithub synced]).
    rewrite !processed_app, Hp. cbn. now rewrite app_nil_r.
  - change (SyncingGithub :: added ++ [SyncedGithub synced])
      with ([SyncingGithub] ++ added ++ [SyncedGithub synced]).
    rewrite !successes_app, Hs. cbn. lia.
Qed.

End SyncFacts.

Section UploadTable.
Import Py Maintain KbObs.
Variable env : Env.

Lemma payload_has_key source_id content metadata v :
  has_source_id source_id (payload_of source_id content metadata v) = true.
Proof.
  unfold has_source_id, payload_of. cbn [row_metadata].
  rewrite dict_get_set_same. apply String.eqb_refl.
Qed.

Lemma has_source_id_unique sid sid' r :
  has_source_id sid r = true -> has_source_id sid' r = true -> sid = sid'.
Proof.
  unfold has_source_id.
  destruct (dict_get "source_id" (row_metadata r)) as [[s| | |]|];
    try discriminate.
  intros H H'. apply String.eqb_eq in H, H'. congruence.
Qed.

Lemma rows_of_app sid l l' : rows_of sid (l ++ l') = rows_of sid l ++ rows_of sid l'.
Proof. apply filter_app. Qed.

Lemma rows_of_after_purge_other sid sid' st :
  sid' <> sid ->
  rows_of sid' (after_purge env sid st) = rows_of sid' (documents st).
Proof.
  intros Hne. unfold after_purge, rows_of.
  destruct (delete_raises env (calls st) sid); [reflexivity|].
  induction (documents st) as [|r l IH]; [reflexivity|]. cbn [filter].
  destruct (has_source_id sid r) eqn:E; cbn [negb filter].
  - destruct (has_source_id sid' r) eqn:E'; [|exact IH].
    exfalso. apply Hne. now apply (has_source_id_unique sid' sid r).
  - destruct (has_source_id sid' r); [now rewrite IH | exact IH].
Qed.

Lemma rows_of_after_purge_same sid st :
  rows_of sid (after_purge env sid st)
  = match delete_raises env (calls st) sid with
    | None => []
    | Some _ => rows_of sid (documents st)
    end.
Proof.
  unfold after_purge, rows_of.
  destruct (delete_raises env (calls st) sid); [reflexivity|].
  induction (documents st) as [|r l IH]; [reflexivity|]. cbn [filter].
  destruct (has_source_id sid r) eqn:E; cbn [negb filter]; [exact IH|].
  now rewrite E.
Qed.

Lemma after_purge_length sid st :
  length (after_purge env sid st) <= length (documents st).
Proof.
  unfold after_purge. destruct (delete_raises env (calls st) sid); [lia|].
  apply filter_length_le.
Qed.

(** The table after an upload: what the purge left, and the new row
    exactly when the upload returns [True]. *)
Lemma upload_documents source_id content metadata st :
  exists v,
    documents (snd (upload_knowledge env source_id content metadata st))
    = after_purge env source_id st
      ++ (if fst (upload_knowledge env source_id content metadata st)
          then [payload_of source_id content metadata v] else []).
Proof.
  rewrite (upload_cases env source_id content metadata st). cbv zeta.
  destruct (embed_content env (S (calls st)) content) as [v|e].
  - exists v. destruct (insert_raises env (2 + calls st) _);
      cbn [fst snd documents]; now rewrite ?app_nil_r.
  - exists []. cbn [fst snd documents]. now rewrite app_nil_r.
Qed.

Lemma upload_calls source_id content metadata st :
  calls st < calls (snd (upload_knowledge env source_id content metadata st)).
Proof.
  rewrite (upload_cases env source_id content metadata st). cbv zeta.
  destruct (embed_content env (S (calls st)) content) as [v|e].
  - destruct (insert_raises env (2 + calls st) _); cbn [snd calls]; lia.
  - cbn [snd calls]. lia.
Qed.

End UploadTable.

Section IngestionClaims.
Import Py Maintain KbObs Scenarios.

(** C6, as stated, fails: an upload whose embedding fails has written to
    the store.  The table held the first version of the CV; the upload of
    the second version fails at the embedding, after the delete, and
    leaves the table empty. *)
Lemma failed_embedding_loses_previous_version :
  map row_content (documents kb_with_cv) = ["First version"] /\
  fst (upload_knowledge kb_embed_down "cv_main" "Second version"
         [("type", VStr "resume")] kb_with_cv) = false /\
  documents (snd (upload_knowledge kb_embed_down "cv_main" "Second version"
                    [("type", VStr "resume")] kb_with_cv)) = [] /\
  documents (snd (upload_knowledge kb_embed_down "cv_main" "Second version"
                    [("type", VStr "resume")] kb_with_cv))
  <> documents kb_with_cv.
Proof. vm_compute. repeat split. discriminate. Qed.

(** C6 (amended). For every upload of (source_id, content, metadata): a
    purge that raises is logged as a warning and the upload goes on to
    the embedding, and from there to the insert, on the table as it was;
    an embedding that raises makes the upload return [False] after two
    outside calls, so without any insert, but after the delete: when the
    purge went through, the rows stored under [source_id] are gone and
    the rows of every other source are as they were, and when the purge
    raised the table is unchanged; an upload that returns [True] has
    added exactly one row to what the purge left, with the given content
    and with [source_id] in its metadata; and the number a sync run
    returns is the number of uploads that reported success, so a failed
    item adds nothing to it. *)
Theorem upload_knowledge_policy :
  (forall env source_id content metadata st,
     let r := upload_knowledge env source_id content metadata st in
     (forall e,
        delete_raises env (calls st) source_id = Some e ->
        In (PurgeWarning e) (new_lines st (snd r)) /\
        In GeneratingEmbedding (new_lines st (snd r)) /\
        2 + calls st <= calls (snd r) /\
        after_purge env source_id st = documents st /\
        (forall v,
           embed_content env (S (calls st)) content = Ok v ->
           insert_raises env (2 + calls st)
             (payload_of source_id content metadata v) = None ->
           r = (true,
                mkState
                  (documents st ++ [payload_of source_id content metadata v])
                  (3 + calls st) (log (snd r))))) /\
     (forall e,
        embed_content env (S (calls st)) content = Raise e ->
        fst r = false /\
        calls (snd r) = 2 + calls st /\
        documents (snd r) = after_purge env source_id st /\
        incl (documents (snd r)) (documents st) /\
        (delete_raises env (calls st) source_id = None ->
         rows_of source_id (documents (snd r)) = [] /\
         forall other,
           other <> source_id ->
           rows_of other (documents (snd r)) = rows_of other (documents st)) /\
        (forall e',
           delete_raises env (calls st) source_id = Some e' ->
           documents (snd r) = documents st) /\
        successes (new_lines st (snd r)) = 0) /\
     (fst r = true ->
      exists v,
        embed_content env (S (calls st)) content = Ok v /\
        documents (snd r)
        = after_purge env source_id st
            ++ [payload_of source_id content metadata v] /\
        row_content (payload_of source_id content metadata v) = content /\
        row_key (payload_of source_id content metadata v)
        = Some (VStr source_id)) /\
     (fst r = false -> documents (snd r) = after_purge env source_id st)) /\
  (forall env st repos,
     github_repos env (calls st) = Ok repos ->
     fst (sync_github env st)
     = successes (new_lines st (snd (sync_github env st)))).
Proof.
  split.
  - intros env source_id content metadata st r. subst r.
    rewrite (upload_cases env source_id content metadata st). cbv zeta.
    split; [|split; [|split]].
    + intros e He. unfold after_purge. rewrite He.
      destruct (embed_content env (S (calls st)) content) as [v|e1].
      * destruct (insert_raises env (2 + calls st) _) as [e2|] eqn:Hi;
          cbn [fst snd calls];
          (erewrite new_lines_app by reflexivity);
          (split; [simpl; tauto|]); (split; [simpl; tauto|]);
          (split; [lia|]); (split; [reflexivity|]);
          intros v' [= <-] Hi'; [congruence | reflexivity].
      * cbn [fst snd calls]. erewrite new_lines_app by reflexivity.
        split; [simpl; tauto|]. split; [simpl; tauto|].
        split; [lia|]. split; [reflexivity|]. discriminate.
    + intros e He. rewrite He. cbn [fst snd calls documents].
      erewrite new_lines_app by reflexivity.
      split; [reflexivity|]. split; [reflexivity|]. split; [reflexivity|].
      split; [apply after_purge_incl|]. split; [|split].
      * intros Hd. split.
        -- rewrite rows_of_after_purge_same. now rewrite Hd.
        -- intros other Hne. now apply rows_of_after_purge_other.
      * intros e' Hd. unfold after_purge. now rewrite Hd.
      * now destruct (delete_raises env (calls st) source_id).
    + destruct (embed_content env (S (calls st)) content) as [v|e1];
        [|discriminate].
      destruct (insert_raises env (2 + calls st) _) as [e2|];
        [discriminate|].
      intros _. exists v. repeat split.
      unfold row_key, payload_of. cbn [row_metadata].
      apply dict_get_set_same.
    + destruct (embed_content env (S (calls st)) content) as [v|e1];
        [|reflexivity].
      destruct (insert_raises env (2 + calls st) _) as [e2|];
        [reflexivity | discriminate].
  - intros env st repos H.
    destruct (sync_github_log env st repos H) as (added & -> & _ & Hs).
    exact Hs.
Qed.

Lemma upload_knowledge_policy_witness :
  fst (upload_knowledge kb_purge_down "cv_main" "CV text"
         [("type", VStr "resume")] empty_kb) = true /\
  fst (upload_knowledge kb_embed_down "cv_main" "Second version"
         [("type", VStr "resume")] kb_with_cv) = false /\
  rows_of "cv_main"
    (documents (snd (upload_knowledge kb_embed_down "cv_main" "Second version"
                       [("type", VStr "resume")] kb_with_cv))) = [].
Proof.
  destruct (proj1 upload_knowledge_policy kb_purge_down "cv_main" "CV text"
              [("type", VStr "resume")] empty_kb) as (Hp & _).
  destruct (proj1 upload_knowledge_policy kb_embed_down "cv_main"
              "Second version" [("type", VStr "resume")] kb_with_cv)
    as (_ & He & _).
  destruct (Hp "relation documents does not exist" eq_refl)
    as (_ & _ & _ & _ & Hok).
  destruct (He "quota" eq_refl) as (Hf & _ & _ & _ & Hgone & _).
  split; [|split].
  - now rewrite (Hok [7; 7] eq_refl eq_refl).
  - exact Hf.
  - exact (proj1 (Hgone eq_refl)).
Defined.



End IngestionClaims.

(** ** Capacity of the session store *)

Section EvictionFacts.
Import Py Main Obs.
Variable env : Env.

(** The scan of [min]: the key it returns belongs to an entry that is
    strictly older than every entry before it and at least as old as
    every entry after it. *)
Lemma oldest_from_first_least rest : forall pre kb sb mid,
  (forall e, In e pre -> updated sb < updated (snd e)) ->
  (forall e, In e mid -> updated sb <= updated (snd e)) ->
  exists pre' s post,
    pre ++ (kb, sb) :: mid ++ rest
    = pre' ++ (oldest_from kb (updated sb) rest, s) :: post /\
    (forall e, In e pre' -> updated s < updated (snd e)) /\
    (forall e, In e post -> updated s <= updated (snd e)).
Proof.
  induction rest as [|[k s] rest IH]; intros pre kb sb mid Hpre Hmid.
  - exists pre, sb, mid. rewrite app_nil_r. auto.
  - cbn [oldest_from]. destruct (updated s <? updated sb) eqn:E.
    + apply Nat.ltb_lt in E.
      destruct (IH (pre ++ (kb, sb) :: mid) k s []) as (pre' & s' & post & H).
      * intros e He. apply in_app_iff in He. destruct He as [He|[<-|He]].
        -- specialize (Hpre e He). lia.
        -- exact E.
        -- specialize (Hmid e He). lia.
      * intros e [].
      * exists pre', s', post. rewrite <- (proj1 H).
        split; [|exact (proj2 H)]. rewrite <- !app_assoc. reflexivity.
    + apply Nat.ltb_ge in E.
      destruct (IH pre kb sb (mid ++ [(k, s)])) as (pre' & s' & post & H).
      * exact Hpre.
      * intros e He. apply in_app_iff in He. destruct He as [He|[<-|[]]].
        -- now apply Hmid.
        -- exact E.
      * exists pre', s', post. rewrite <- (proj1 H).
        split; [|exact (proj2 H)]. rewrite <- !app_assoc. reflexivity.
Qed.

Lemma oldest_first_least mem k :
  oldest mem = Some k ->
  exists pre s post,
    mem = pre ++ (k, s) :: post /\
    (forall e, In e pre -> updated s < updated (snd e)) /\
    (forall e, In e post -> updated s <= updated (snd e)).
Proof.
  destruct mem as [|[k0 s0] rest]; [discriminate|]. intros [= <-].
  destruct (oldest_from_first_least rest [] k0 s0 []) as (pre & s & post & H).
  - intros e [].
  - intros e [].
  - exists pre, s, post. exact H.
Qed.

Lemma oldest_some mem : mem <> [] -> exists k, oldest mem = Some k.
Proof. destruct mem as [|[k s] rest]; [congruence|]. eexists. reflexivity. Qed.

Lemma dict_del_unique {V} k (v : V) pre post :
  NoDup (keys (pre ++ (k, v) :: post)) ->
  dict_del k (pre ++ (k, v) :: post) = pre ++ post.
Proof.
  intros Hnd. unfold dict_del. rewrite filter_app. cbn [filter fst].
  rewrite String.eqb_refl. cbn [negb].
  assert (Hother : forall l : dict V,
            ~ In k (keys l) ->
            filter (fun kv => negb (String.eqb k (fst kv))) l = l).
  { induction l as [|[k' v'] l IH]; [reflexivity|]. intros Hn.
    cbn [filter fst]. cbn [keys map fst] in Hn.
    destruct (String.eqb k k') eqn:E.
    - apply String.eqb_eq in E. subst k'. exfalso. apply Hn. now left.
    - cbn [negb]. f_equal. apply IH. intros Hin. apply Hn. now right. }
  unfold keys in Hnd. rewrite map_app in Hnd. cbn [map fst] in Hnd.
  rewrite !Hother; [reflexivity| |].
  - apply NoDup_remove_2 in Hnd. rewrite in_app_iff in Hnd. tauto.
  - apply NoDup_remove_2 in Hnd. rewrite in_app_iff in Hnd. tauto.
Qed.

(** What the clean-up step does to a full store: it takes out the
    first of the least recently updated sessions and nothing else. *)
Lemma evict_full mem :
  NoDup (keys mem) ->
  MAX_MEMORY_SESSIONS <= length mem ->
  exists pre k s post,
    mem = pre ++ (k, s) :: post /\
    evict_if_full mem = pre ++ post /\
    (forall e, In e pre -> updated s < updated (snd e)) /\
    (forall e, In e post -> updated s <= updated (snd e)).
Proof.
  intros Hnd Hfull. unfold evict_if_full.
  apply Nat.leb_le in Hfull. rewrite Hfull. apply Nat.leb_le in Hfull.
  destruct (oldest_some mem) as [k Hk].
  { intros ->. unfold MAX_MEMORY_SESSIONS in Hfull. cbn in Hfull. lia. }
  rewrite Hk. destruct (oldest_first_least mem k Hk) as (pre & s & post & -> & H).
  exists pre, k, s, post. split; [reflexivity|].
  split; [now apply dict_del_unique | exact H].
Qed.

Lemma evict_length mem :
  NoDup (keys mem) ->
  length mem <= MAX_MEMORY_SESSIONS ->
  length (evict_if_full mem) < MAX_MEMORY_SESSIONS.
Proof.
  intros Hnd Hle. destruct (Nat.lt_ge_cases (length mem) MAX_MEMORY_SESSIONS).
  - now rewrite evict_below.
  - destruct (evict_full mem Hnd H) as (pre & k & s & post & -> & -> & _).
    rewrite length_app in *. cbn [length] in Hle. lia.
Qed.

End EvictionFacts.

Section StoreInvariant.
Import Py Main Obs.
Variable env : Env.

Lemma run_ops_snoc ops op st :
  run_ops env (ops ++ [op]) st = apply_op env op (run_ops env ops st).
Proof. unfold run_ops. now rewrite fold_left_app. Qed.

Lemma keys_length {V} (d : dict V) : length (keys d) = length d.
Proof. apply length_map. Qed.

Lemma save_keeps_store_ok sid r c st :
  store_ok st -> store_ok (save_to_session env sid r c st).
Proof.
  intros (Hnd & Hlen & Hs).
  destruct (string_dec sid "") as [->|Hne]; [now rewrite save_empty_id|].
  unfold store_ok, live_sessions in *.
  pose proof (evict_NoDup _ Hnd) as Hnd1.
  pose proof (evict_length _ Hnd Hlen) as Hlen1.
  split; [|split].
  - rewrite save_keys by assumption. unfold dict_mem.
    destruct (dict_get sid (evict_if_full (conversation_memory st))) eqn:E;
      [assumption|].
    apply NoDup_snoc; [assumption | now apply dict_get_none_keys].
  - rewrite <- keys_length, save_keys by assumption.
    destruct (dict_mem sid (evict_if_full (conversation_memory st)));
      rewrite ?length_app, keys_length; cbn [length]; lia.
  - intros k s Hk. destruct (string_dec k sid) as [->|Hks].
    + split; [assumption|].
      destruct (save_lookup_same env sid r c st Hne) as (t & now & t0 & u0 & H).
      rewrite H in Hk. injection Hk as <-.
      rewrite trim_messages_spec, last_n_length. cbn [add_message messages].
      rewrite length_app. cbn [length].
      unfold MAX_MESSAGES_PER_SESSION. lia.
    + destruct (save_lookup_other env sid r c st k Hks) as [H|H];
        [|contradiction].
      rewrite H in Hk.
      destruct (evict_lookup k (conversation_memory st)) as [H1|H1];
        rewrite H1 in Hk; [now apply Hs | discriminate].
Qed.

Lemma clear_keeps_store_ok sid st :
  store_ok st -> store_ok (clear_session sid st).
Proof.
  intros (Hnd & Hlen & Hs). unfold clear_session.
  destruct (dict_mem sid (conversation_memory st));
    [|exact (conj Hnd (conj Hlen Hs))].
  unfold store_ok, live_sessions in *. cbn [conversation_memory].
  split; [now apply keys_del_NoDup|]. split.
  - pose proof (length_del_le sid (conversation_memory st)). lia.
  - intros k s. rewrite dict_get_del.
    destruct (String.eqb k sid); [discriminate | apply Hs].
Qed.

Lemma initial_store_ok : store_ok initial_state.
Proof.
  unfold store_ok, live_sessions. cbn. split; [constructor|].
  split; [lia | discriminate].
Qed.

Lemma run_ops_store_ok ops : store_ok (run_ops env ops initial_state).
Proof.
  induction ops as [|op ops IH] using rev_ind; [apply initial_store_ok|].
  rewrite run_ops_snoc. destruct op; cbn [apply_op].
  - now apply save_keeps_store_ok.
  - now apply clear_keeps_store_ok.
Qed.

Lemma run_saves_store_ok calls : store_ok (run_saves env calls initial_state).
Proof.
  induction calls as [|c calls IH] using rev_ind; [apply initial_store_ok|].
  rewrite run_saves_snoc. now apply save_keeps_store_ok.
Qed.

End StoreInvariant.

Section StoreExtras.
Import Py Main Obs Scenarios.

Lemma dict_get_not_in {V} k (d : dict V) : ~ In k (keys d) -> dict_get k d = None.
Proof.
  intros H. destruct (dict_get k d) eqn:E; [|reflexivity].
  exfalso. apply H. eapply dict_get_in_keys. exact E.
Qed.

Lemma last_n_snoc_last {A} n (l : list A) x :
  1 <= n -> exists earlier, last_n n (l ++ [x]) = earlier ++ [x].
Proof.
  intros Hn. unfold last_n. rewrite length_app. cbn [length].
  rewrite skipn_app.
  replace (length l + 1 - n - length l) with 0 by lia.
  exists (skipn (length l + 1 - n) l). reflexivity.
Qed.

(** X1. Whatever saves and clearings have been done since start-up, the
    session ids stored are pairwise distinct, there are at most
    [MAX_MEMORY_SESSIONS] sessions, none is stored under the empty id,
    and every stored session holds between one and
    [MAX_MESSAGES_PER_SESSION] messages. *)
Theorem session_store_invariant env ops :
  let st := run_ops env ops initial_state in
  NoDup (keys (conversation_memory st)) /\
  live_sessions st <= MAX_MEMORY_SESSIONS /\
  forall sid s,
    dict_get sid (conversation_memory st) = Some s ->
    sid <> "" /\
    1 <= length (messages s) /\
    length (messages s) <= MAX_MESSAGES_PER_SESSION.
Proof. exact (run_ops_store_ok env ops). Qed.

(** X2. Creating a session in a store that holds [MAX_MEMORY_SESSIONS]
    sessions removes exactly one of them, the first in insertion order
    among those with the least [updated] stamp, appends the new session
    with the saved message as its only one, leaves every other session
    as it was, and so keeps the count at [MAX_MEMORY_SESSIONS]. *)
Theorem new_session_at_capacity env sid role content st :
  NoDup (keys (conversation_memory st)) ->
  live_sessions st = MAX_MEMORY_SESSIONS ->
  sid <> "" ->
  dict_get sid (conversation_memory st) = None ->
  exists pre k s post,
    conversation_memory st = pre ++ (k, s) :: post /\
    (forall e, In e pre -> updated s < updated (snd e)) /\
    (forall e, In e post -> updated s <= updated (snd e)) /\
    let st' := save_to_session env sid role content st in
    live_sessions st' = MAX_MEMORY_SESSIONS /\
    dict_get k (conversation_memory st') = None /\
    keys (conversation_memory st') = keys pre ++ keys post ++ [sid] /\
    stored sid st' = [(role, content)] /\
    forall k', k' <> k -> k' <> sid ->
      dict_get k' (conversation_memory st')
      = dict_get k' (conversation_memory st).
Proof.
  intros Hnd Hfull Hne Hnew. unfold live_sessions in *.
  destruct (evict_full (conversation_memory st) Hnd) as
    (pre & k & s & post & Hmem & Hev & Hpre & Hpost); [lia|].
  exists pre, k, s, post. repeat (split; [assumption|]). cbv zeta.
  assert (Hk : k <> sid).
  { intros ->. rewrite Hmem, dict_get_app in Hnew.
    destruct (dict_get sid pre); [discriminate|].
    cbn in Hnew. now rewrite String.eqb_refl in Hnew. }
  assert (Hk1 : dict_get k (pre ++ post) = None).
  { apply dict_get_not_in. rewrite Hmem in Hnd. unfold keys in *.
    rewrite map_app in *. cbn [map fst] in Hnd.
    now apply NoDup_remove_2 in Hnd. }
  assert (Hs1 : dict_get sid (pre ++ post) = None).
  { rewrite <- Hev. destruct (evict_lookup sid (conversation_memory st)) as [H|H];
      congruence. }
  assert (Hkeys : keys (conversation_memory (save_to_session env sid role content st))
                  = keys pre ++ keys post ++ [sid]).
  { rewrite save_keys, Hev by assumption. unfold dict_mem. rewrite Hs1.
    unfold keys. now rewrite map_app, app_assoc. }
  split; [|split; [|split; [exact Hkeys|split]]].
  - rewrite <- keys_length, Hkeys, !length_app, !keys_length. cbn [length].
    rewrite Hmem, length_app in Hfull. cbn [length] in Hfull. lia.
  - destruct (save_lookup_other env sid role content st k Hk) as [H|H];
      [|contradiction]. now rewrite H, Hev.
  - destruct (save_lookup_same env sid role content st Hne)
      as (t & now & t0 & u0 & H).
    rewrite stored_lookup, H, Hev, Hs1 by assumption.
    rewrite trim_messages_spec. reflexivity.
  - intros k' Hk' Hks.
    destruct (save_lookup_other env sid role content st k' Hks) as [H|H];
      [|contradiction].
    rewrite H, Hev, Hmem, !dict_get_app. destruct (dict_get k' pre);
      [reflexivity|]. cbn [dict_get].
    apply String.eqb_neq in Hk'. now rewrite Hk'.
Qed.

Lemma new_session_at_capacity_witness :
  exists pre k s post,
    conversation_memory full_store = pre ++ (k, s) :: post /\
    (forall e, In e pre -> updated s < updated (snd e)) /\
    (forall e, In e post -> updated s <= updated (snd e)) /\
    let st' := save_to_session env_ok "s1000" "user" "hi" full_store in
    live_sessions st' = MAX_MEMORY_SESSIONS /\
    dict_get k (conversation_memory st') = None /\
    keys (conversation_memory st') = keys pre ++ keys post ++ ["s1000"] /\
    stored "s1000" st' = [("user", "hi")] /\
    forall k', k' <> k -> k' <> "s1000" ->
      dict_get k' (conversation_memory st')
      = dict_get k' (conversation_memory full_store).
Proof.
  apply (new_session_at_capacity env_ok "s1000" "user" "hi" full_store).
  - apply (run_saves_store_ok env_ok (creations MAX_MEMORY_SESSIONS)).
  - vm_compute. reflexivity.
  - discriminate.
  - vm_compute. reflexivity.
Defined.

End StoreExtras.

Section StoreExtras2.
Import Py Main Obs Scenarios.

(** X3. A save into a store holding fewer than [MAX_MEMORY_SESSIONS]
    sessions removes nothing: every other session is as it was, the
    saved-to session holds its earlier messages followed by the new one,
    cut to the [MAX_MESSAGES_PER_SESSION] most recent, and the count
    grows by one exactly when the id was not stored. *)
Theorem save_below_capacity env sid role content st :
  live_sessions st < MAX_MEMORY_SESSIONS ->
  sid <> "" ->
  let st' := save_to_session env sid role content st in
  stored sid st'
  = last_n MAX_MESSAGES_PER_SESSION (stored sid st ++ [(role, content)]) /\
  (forall k, k <> sid ->
     dict_get k (conversation_memory st')
     = dict_get k (conversation_memory st)) /\
  live_sessions st'
  = live_sessions st + (if dict_mem sid (conversation_memory st) then 0 else 1).
Proof.
  intros Hlt Hne st'. subst st'. unfold live_sessions in *.
  pose proof (evict_below (conversation_memory st) Hlt) as Hev.
  split; [|split].
  - destruct (stored_save_same env sid role content st Hne)
      as (base & _ & Hb & ->). now rewrite (Hb Hev).
  - intros k Hk.
    destruct (save_lookup_other env sid role content st k Hk) as [H|H];
      [|contradiction]. now rewrite H, Hev.
  - rewrite <- !keys_length, save_keys, Hev by assumption.
    destruct (dict_mem sid (conversation_memory st));
      rewrite ?length_app; cbn [length]; lia.
Qed.

Lemma save_below_capacity_witness :
  stored "abc" (save_to_session env_ok "abc" "user" "hello" initial_state)
  = last_n MAX_MESSAGES_PER_SESSION
      (stored "abc" initial_state ++ [("user", "hello")]).
Proof.
  refine (proj1 (save_below_capacity env_ok "abc" "user" "hello"
                   initial_state _ _)).
  - vm_compute. lia.
  - discriminate.
Defined.

(** X4. Clearing a session leaves no history under its id and touches no
    other session; clearing an id that is not stored, or clearing twice,
    changes nothing further; and the count drops by one exactly when the
    id was stored. *)
Theorem clear_session_effect sid st :
  get_session_history sid (clear_session sid st) = [] /\
  (forall k, k <> sid ->
     dict_get k (conversation_memory (clear_session sid st))
     = dict_get k (conversation_memory st)) /\
  (dict_get sid (conversation_memory st) = None -> clear_session sid st = st) /\
  clear_session sid (clear_session sid st) = clear_session sid st /\
  (NoDup (keys (conversation_memory st)) ->
   live_sessions (clear_session sid st)
   + (if dict_mem sid (conversation_memory st) then 1 else 0)
   = live_sessions st).
Proof.
  assert (Hgone : dict_get sid (conversation_memory (clear_session sid st))
                  = None).
  { unfold clear_session, dict_mem.
    destruct (dict_get sid (conversation_memory st)) eqn:E; cbn.
    - now rewrite dict_get_del, String.eqb_refl.
    - exact E. }
  split; [|split; [|split; [|split]]].
  - unfold get_session_history. rewrite Hgone. now destruct (String.eqb sid "").
  - intros k Hk. unfold clear_session.
    destruct (dict_mem sid (conversation_memory st)); [|reflexivity].
    cbn. rewrite dict_get_del. apply String.eqb_neq in Hk. now rewrite Hk.
  - intros H. unfold clear_session, dict_mem. now rewrite H.
  - unfold clear_session at 1. unfold dict_mem. now rewrite Hgone.
  - intros Hnd. unfold live_sessions, clear_session, dict_mem.
    destruct (dict_get sid (conversation_memory st)) as [s|] eqn:E;
      [|cbn; lia].
    cbn [conversation_memory].
    apply dict_get_In in E. apply in_split in E. destruct E as (pre & post & E).
    rewrite E in Hnd |- *. rewrite dict_del_unique by assumption.
    rewrite !length_app. cbn [length]. lia.
Qed.

(** X5. Right after a save under a non-empty id the session exists and
    its last message is the one saved, whatever the store held and
    whether or not the clean-up step fired; a save under the empty id
    changes nothing. *)
Theorem saved_message_is_last env sid role content st :
  save_to_session env "" role content st = st /\
  (sid <> "" ->
   dict_mem sid (conversation_memory (save_to_session env sid role content st))
   = true /\
   exists earlier,
     stored sid (save_to_session env sid role content st)
     = earlier ++ [(role, content)]).
Proof.
  split; [reflexivity|]. intros Hne. split.
  - destruct (save_lookup_same env sid role content st Hne)
      as (t & now & t0 & u0 & H). unfold dict_mem. now rewrite H.
  - destruct (stored_save_same env sid role content st Hne)
      as (base & _ & _ & ->).
    apply last_n_snoc_last. unfold MAX_MESSAGES_PER_SESSION. lia.
Qed.

End StoreExtras2.

Section TurnOutcomes.
Import Py Main Obs.
Variable env : Env.

Lemma save_with_events sid r c st evs :
  save_to_session env sid r c (with_events st evs)
  = with_events (save_to_session env sid r c st) evs.
Proof.
  unfold save_to_session, with_events. cbn [conversation_memory ticks trace].
  destruct (String.eqb sid ""); [reflexivity|].
  now destruct (init_if_new env sid _ _).
Qed.

(** What [remember] does: the two saves, for a request with a session
    id, and nothing otherwise. *)
Lemma remember_saves request answer st :
  snd (remember env request answer st)
  = match session_id request with
    | Some sid =>
        save_to_session env sid "assistant" answer
          (save_to_session env sid "user" (query request) st)
    | None => st
    end.
Proof.
  unfold remember. destruct (session_id request) as [sid|]; [|reflexivity].
  unfold nonempty. destruct (String.eqb sid "") eqn:E; cbn [negb].
  - apply String.eqb_eq in E. subst sid. reflexivity.
  - reflexivity.
Qed.

Lemma remember_with_events request answer st evs :
  snd (remember env request answer (with_events st evs))
  = with_events (snd (remember env request answer st)) evs.
Proof.
  rewrite !remember_saves. destruct (session_id request); [|reflexivity].
  now rewrite !save_with_events.
Qed.

Lemma save_without_eviction sid role content st :
  live_sessions st < MAX_MEMORY_SESSIONS ->
  sid <> "" ->
  stored sid (save_to_session env sid role content st)
  = last_n MAX_MESSAGES_PER_SESSION (stored sid st ++ [(role, content)]) /\
  (forall k, k <> sid ->
     dict_get k (conversation_memory (save_to_session env sid role content st))
     = dict_get k (conversation_memory st)) /\
  live_sessions (save_to_session env sid role content st)
  <= S (live_sessions st).
Proof.
  intros Hlt Hne. unfold live_sessions in *.
  pose proof (evict_below (conversation_memory st) Hlt) as Hev.
  split; [|split].
  - destruct (stored_save_same env sid role content st Hne)
      as (base & _ & Hb & ->). now rewrite (Hb Hev).
  - intros k Hk.
    destruct (save_lookup_other env sid role content st k Hk) as [H|H];
      [|contradiction]. now rewrite H, Hev.
  - rewrite <- !keys_length, save_keys, Hev by assumption.
    destruct (dict_mem sid (conversation_memory st));
      rewrite ?length_app; cbn [length]; lia.
Qed.

(** A turn in which generation was called went past the easter eggs,
    and ended as the outcome of that call decides. *)
Lemma generation_decides request st prompt :
  In (Generate prompt) (new_events st (snd (chat env request st))) ->
  exists evs cits,
    ~ In (Generate prompt) evs /\
    let st2 := with_events st (evs ++ [Generate prompt]) in
    chat env request st =
    match generate_content env prompt with
    | Ok text =>
        (Ok (mkChatReply text cits false (session_id request)
               (Some (language request))),
         snd (remember env request text st2))
    | Raise e =>
        if is_rate_limit (exn_str e)
        then (Ok (apology_reply request), st2)
        else (Ok (critical_reply request),
              with_events st2 [Print ("Chat error: " ++ exn_str e)%string])
    end.
Proof.
  intros Hin.
  destruct (check_easter_egg (query request)) as [egg|] eqn:Hegg.
  { exfalso. rewrite (chat_on_egg env request st egg Hegg) in Hin.
    cbn [snd] in Hin. rewrite (new_events_app _ _ []) in Hin; [exact Hin|].
    now rewrite remember_events, app_nil_r. }
  rewrite (chat_past_eggs env request st Hegg) in *.
  pose proof (chat_rag_cases env request st) as Hc. cbv zeta in Hc.
  destruct (embed_content env (query request)) as [v|e0].
  2:{ exfalso. rewrite Hc in Hin. cbn [snd] in Hin.
      rewrite with_events_twice, with_events_events in Hin.
      simpl in Hin. intuition discriminate. }
  destruct Hc as (docs & evs & _ & Hevs & Hc).
  assert (Hno : ~ In (Generate prompt) (Embed (query request) :: evs)).
  { destruct (match_documents env v 5); destruct Hevs as [_ ->];
      simpl; intuition discriminate. }
  destruct (combined_history_of request st) as [h|].
  2:{ exfalso. rewrite Hc in Hin. cbn [snd] in Hin.
      rewrite with_events_twice, with_events_events in Hin.
      rewrite in_app_iff in Hin. simpl in Hin, Hno.
      intuition discriminate. }
  set (p := full_prompt_of _ _ _) in Hc.
  exists (Embed (query request) :: evs),
         (snd (build_system_prompt docs (language_or_en request))).
  split; [exact Hno|]. cbv zeta.
  assert (Hpp : prompt = p).
  { destruct (generate_content env p) as [text|e1].
    - rewrite Hc in Hin. cbn [snd] in Hin.
      rewrite (new_events_app _ _ (Embed (query request) :: evs ++ [Generate p]))
        in Hin by now rewrite remember_events.
      rewrite app_comm_cons, in_app_iff in Hin. simpl in Hin, Hno.
      intuition; congruence.
    - destruct (is_rate_limit (exn_str e1)); rewrite Hc in Hin;
        cbn [snd] in Hin;
        rewrite ?with_events_twice, with_events_events in Hin;
        rewrite ?app_comm_cons, !in_app_iff in Hin; simpl in Hin, Hno;
        intuition; try discriminate; congruence. }
  subst prompt. rewrite <- app_comm_cons.
  destruct (generate_content env p) as [text|e1]; rewrite Hc;
    [reflexivity|].
  destruct (is_rate_limit (exn_str e1)); reflexivity.
Qed.

End TurnOutcomes.

Section ChatExtras.
Import Py Main Obs Scenarios.

(** X6. [chat] never lets an exception out: whatever the collaborators
    do, it returns a reply, and the reply echoes the request's session
    id. *)
Theorem chat_always_replies env request st :
  exists reply,
    fst (chat env request st) = Ok reply /\
    reply_session_id reply = session_id request.
Proof.
  destruct (check_easter_egg (query request)) as [egg|] eqn:Hegg.
  - rewrite (chat_on_egg env request st egg Hegg). eexists. split; reflexivity.
  - rewrite (chat_past_eggs env request st Hegg).
    pose proof (chat_rag_cases env request st) as Hc. cbv zeta in Hc.
    destruct (embed_content env (query request)) as [v|e0].
    2:{ rewrite Hc. eexists. split; reflexivity. }
    destruct Hc as (docs & evs & _ & _ & Hc).
    destruct (combined_history_of request st) as [h|].
    2:{ rewrite Hc. eexists. split; reflexivity. }
    destruct (generate_content env _) as [text|e1].
    + rewrite Hc. eexists. split; reflexivity.
    + destruct (is_rate_limit (exn_str e1)); rewrite Hc; eexists;
        split; reflexivity.
Qed.

(** X7. When the generation call of a turn answers, the reply is its
    text, and for a request with a session id both turns are saved: in a
    store with room for one more session the session then holds its
    earlier messages, the query as [user] and the answer as [assistant],
    cut to the most recent [MAX_MESSAGES_PER_SESSION], every other
    session being untouched.  Without a session id nothing is saved. *)
Theorem answered_turn_is_saved env request st prompt text :
  In (Generate prompt) (new_events st (snd (chat env request st))) ->
  generate_content env prompt = Ok text ->
  (exists reply,
     fst (chat env request st) = Ok reply /\ response reply = text /\
     easter_egg reply = false) /\
  (session_id request = None ->
   conversation_memory (snd (chat env request st)) = conversation_memory st) /\
  (forall sid,
     session_id request = Some sid -> sid <> "" ->
     S (live_sessions st) < MAX_MEMORY_SESSIONS ->
     stored sid (snd (chat env request st))
     = last_n MAX_MESSAGES_PER_SESSION
         (stored sid st
            ++ [("user", query request); ("assistant", text)]) /\
     forall k, k <> sid ->
       dict_get k (conversation_memory (snd (chat env request st)))
       = dict_get k (conversation_memory st)).
Proof.
  intros Hin Hgen.
  destruct (generation_decides env request st prompt Hin)
    as (evs & cits & _ & Hc). cbv zeta in Hc. rewrite Hgen in Hc.
  rewrite Hc. cbn [fst snd]. rewrite remember_with_events, remember_saves.
  split; [eexists; repeat split|]. split.
  - intros ->. reflexivity.
  - intros sid -> Hne Hroom.
    change (stored sid (with_events ?s ?evs)) with (stored sid s).
    change (conversation_memory (with_events ?s ?evs))
      with (conversation_memory s).
    destruct (save_without_eviction env sid "user" (query request) st)
      as (H1 & H1o & H1l); [lia | assumption |].
    destruct (save_without_eviction env sid "assistant" text
                (save_to_session env sid "user" (query request) st))
      as (H2 & H2o & _); [lia | assumption |].
    split.
    + rewrite H2, H1, <- last_n_app, <- app_assoc. reflexivity.
    + intros k Hk. now rewrite H2o, H1o.
Qed.

Lemma answered_turn_is_saved_witness :
  stored "abc" (snd (chat env_ok projects_request initial_state))
  = last_n MAX_MESSAGES_PER_SESSION
      (stored "abc" initial_state
         ++ [("user", query projects_request);
             ("assistant", "A generated answer.")]).
Proof.
  refine (proj1 (proj2 (proj2
            (answered_turn_is_saved env_ok projects_request initial_state
               (full_prompt_of (fst (build_system_prompt [] "en")) []
                  (query projects_request))
               "A generated answer." _ eq_refl)) "abc" eq_refl _ _)).
  - apply (nth_error_In _ 2). vm_compute. reflexivity.
  - discriminate.
  - vm_compute. lia.
Defined.

(** X8. When the generation call of a turn raises an error that mentions
    neither [ResourceExhausted] nor [429], [chat] prints the error and
    returns the critical-error reply with no citations; nothing is
    saved. *)
Theorem generation_error_is_critical env request st prompt e :
  In (Generate prompt) (new_events st (snd (chat env request st))) ->
  generate_content env prompt = Raise e ->
  is_rate_limit (exn_str e) = false ->
  fst (chat env request st) = Ok (critical_reply request) /\
  response (critical_reply request) = CRITICAL_ERROR /\
  citations (critical_reply request) = [] /\
  conversation_memory (snd (chat env request st)) = conversation_memory st /\
  In (Print ("Chat error: " ++ exn_str e)%string)
     (new_events st (snd (chat env request st))).
Proof.
  intros Hin Hgen Hrl.
  destruct (generation_decides env request st prompt Hin)
    as (evs & cits & _ & Hc). cbv zeta in Hc. rewrite Hgen, Hrl in Hc.
  rewrite Hc. cbn [fst snd]. repeat split.
  rewrite with_events_twice, with_events_events, in_app_iff.
  right. now left.
Qed.

Lemma generation_error_is_critical_witness :
  fst (chat env_generation_down projects_request initial_state)
  = Ok (critical_reply projects_request).
Proof.
  refine (proj1 (generation_error_is_critical env_generation_down
                   projects_request initial_state
                   (full_prompt_of (fst (build_system_prompt [] "en")) []
                      (query projects_request))
                   (Exception "500 Internal error") _ eq_refl _)).
  - apply (nth_error_In _ 2). vm_compute. reflexivity.
  - vm_compute. reflexivity.
Defined.

End ChatExtras.

Section StreamAndEggs.
Import Py Main Obs Scenarios.

(** X9. When the embedding call answers, the streaming endpoint sends
    Gemini the system prompt built for [en], the fixed acknowledgement
    and the last six items of the request's history, and streams one text
    event per non-empty chunk, in order, closed by the end marker exactly
    when the generation did not raise; a request without a history list
    makes the generator raise before any call to Gemini.  The request's
    language and session id play no part. *)
Theorem stream_protocol env request st v :
  embed_content env (query request) = Ok v ->
  serve_chat_stream env request st
  = serve_chat_stream env
      (mkChatRequest (query request) (conversation_history request) None None)
      st /\
  exists docs evs,
    search_knowledge_base env v 5 (with_events st [Embed (query request)])
    = (Ok docs, with_events st (Embed (query request) :: evs)) /\
    let sp := fst (build_system_prompt docs "en") in
    let cits := snd (build_system_prompt docs "en") in
    match conversation_history request with
    | None =>
        serve_chat_stream env request st
        = (Streamed cits [] (Some not_subscriptable),
           with_events st (Embed (query request) :: evs))
    | Some h =>
        let sent :=
          [mkGeminiMsg "user" [sp]; mkGeminiMsg "model" [MODEL_ACK]]
          ++ map gemini_of (last_n 6 h) in
        serve_chat_stream env request st
        = (Streamed cits
             (map SseText
                (filter nonempty
                   (fst (send_message_stream env sent (query request))))
              ++ match snd (send_message_stream env sent (query request)) with
                 | None => [SseDone]
                 | Some _ => []
                 end)
             (snd (send_message_stream env sent (query request))),
           with_events st
             (Embed (query request) :: evs
              ++ [SendMessageStream sent (query request)]))
    end.
Proof.
  intros Hemb. split; [reflexivity|].
  pose proof (chat_stream_cases env request st) as Hc. cbv zeta in Hc.
  rewrite Hemb in Hc. destruct Hc as (docs & evs & Hs & Hc).
  exists docs, evs. split; [exact Hs|]. cbv zeta.
  unfold serve_chat_stream. rewrite Hc. cbn [stream_body x_citations].
  unfold generate_streaming_response.
  destruct (conversation_history request) as [h|]; [|reflexivity].
  assert (Hsent :
    removelast
      ([mkGeminiMsg "user" [fst (build_system_prompt docs "en")];
        mkGeminiMsg "model" [MODEL_ACK]]
       ++ map gemini_of (last_n 6 h)
       ++ [mkGeminiMsg "user" [query request]])
    = [mkGeminiMsg "user" [fst (build_system_prompt docs "en")];
       mkGeminiMsg "model" [MODEL_ACK]]
      ++ map gemini_of (last_n 6 h)).
  { rewrite app_assoc. apply removelast_last. }
  rewrite Hsent.
  destruct (send_message_stream env _ (query request)) as [chunks [e|]];
    cbn [fst snd with_events conversation_memory ticks trace];
    rewrite <- ?app_assoc, ?app_nil_r; reflexivity.
Qed.

Lemma stream_protocol_witness :
  serve_chat_stream env_ok projects_request initial_state
  = serve_chat_stream env_ok
      (mkChatRequest (query projects_request)
         (conversation_history projects_request) None None)
      initial_state.
Proof.
  exact (proj1 (stream_protocol env_ok projects_request initial_state
                  [1; 2; 3] eq_refl)).
Defined.

Lemma lower_upper_char c : lower_char (upper_char c) = lower_char c.
Proof. destruct c as [[] [] [] [] [] [] [] []]; reflexivity. Qed.

Lemma lower_lower_char c : lower_char (lower_char c) = lower_char c.
Proof. destruct c as [[] [] [] [] [] [] [] []]; reflexivity. Qed.

Lemma lower_upper s : lower (upper s) = lower s.
Proof.
  induction s as [|c s IH]; [reflexivity|]. cbn [upper lower].
  now rewrite lower_upper_char, IH.
Qed.

Lemma lower_lower s : lower (lower s) = lower s.
Proof.
  induction s as [|c s IH]; [reflexivity|]. cbn [lower].
  now rewrite lower_lower_char, IH.
Qed.

Lemma first_match_some q table canned :
  first_match q table = Some canned ->
  exists t, In (t, canned) table /\ contains t q = true.
Proof.
  induction table as [|[t0 c0] table IH]; cbn [first_match]; [discriminate|].
  destruct (contains t0 q) eqn:E.
  - intros [= <-]. exists t0. split; [now left | exact E].
  - intros H. destruct (IH H) as (t & Hin & Ht). exists t.
    split; [now right | exact Ht].
Qed.

(** X10. On a query of ASCII text the easter-egg check does not see the
    case of the letters: the query and its upper-case or lower-case form
    get the same result.  For every query the result is a canned text of
    the table whose trigger occurs in the lowered, stripped query, and
    there is none exactly when no trigger occurs in it. *)
Theorem easter_egg_ignores_case q :
  (isascii q = true ->
   check_easter_egg (upper q) = check_easter_egg q /\
   check_easter_egg (lower q) = check_easter_egg q) /\
  (forall canned,
     check_easter_egg q = Some canned ->
     exists trigger,
       In (trigger, canned) EASTER_EGGS /\
       contains trigger (strip (lower q)) = true) /\
  (check_easter_egg q = None <->
   forall trigger,
     In trigger (keys EASTER_EGGS) ->
     contains trigger (strip (lower q)) = false).
Proof.
  unfold check_easter_egg. rewrite lower_upper, lower_lower.
  split; [intros _; split; reflexivity|]. split.
  - intros canned. apply first_match_some.
  - split.
    + apply first_match_none.
    + intros H. destruct (first_match _ EASTER_EGGS) as [canned|] eqn:E;
        [|reflexivity].
      destruct (first_match_some _ _ _ E) as (t & Hin & Ht).
      rewrite H in Ht; [discriminate|].
      apply in_map_iff. exists (t, canned). split; [reflexivity | exact Hin].
Qed.

Lemma easter_egg_ignores_case_witness :
  check_easter_egg (upper "Sudo make me a sandwich")
  = check_easter_egg "Sudo make me a sandwich" /\
  check_easter_egg (lower "Sudo make me a sandwich")
  = check_easter_egg "Sudo make me a sandwich".
Proof.
  exact (proj1 (easter_egg_ignores_case "Sudo make me a sandwich") eq_refl).
Defined.

End StreamAndEggs.

Section IngestionExtras.
Import Py Maintain KbObs Scenarios.

(** X11. An upload touches only the rows of its own source id: the rows
    stored under any other id are the same before and after, whether the
    purge, the embedding or the insert raise or not. *)
Theorem upload_leaves_other_sources_alone
    env source_id content metadata st other :
  other <> source_id ->
  rows_of other
    (documents (snd (upload_knowledge env source_id content metadata st)))
  = rows_of other (documents st).
Proof.
  intros Hne.
  destruct (upload_documents env source_id content metadata st) as [v ->].
  rewrite rows_of_app, rows_of_after_purge_other by assumption.
  destruct (fst (upload_knowledge env source_id content metadata st));
    [|apply app_nil_r].
  unfold rows_of at 2. cbn [filter].
  destruct (has_source_id other (payload_of source_id content metadata v))
    eqn:E; [|apply app_nil_r].
  exfalso. apply Hne.
  apply (has_source_id_unique other source_id
           (payload_of source_id content metadata v) E).
  apply payload_has_key.
Qed.

Lemma upload_leaves_other_sources_alone_witness :
  rows_of "cv_main"
    (documents
       (snd (upload_knowledge kb_ok "thought_testing" "Test first."
               [("type", VStr "philosophy")]
               (snd (upload_knowledge kb_ok "cv_main" "CV text"
                       [("type", VStr "resume")] empty_kb)))))
  = rows_of "cv_main"
      (documents (snd (upload_knowledge kb_ok "cv_main" "CV text"
                         [("type", VStr "resume")] empty_kb))).
Proof.
  apply (upload_leaves_other_sources_alone kb_ok "thought_testing").
  discriminate.
Defined.

(** X12. An upload that returns [True] after a purge that did not raise
    leaves exactly one row under its source id, the new one; so
    uploading one id twice, each time with success, leaves only the
    second content. *)
Theorem upload_replaces_previous_version
    env source_id content metadata st :
  delete_raises env (calls st) source_id = None ->
  fst (upload_knowledge env source_id content metadata st) = true ->
  exists v,
    embed_content env (S (calls st)) content = Ok v /\
    rows_of source_id
      (documents (snd (upload_knowledge env source_id content metadata st)))
    = [payload_of source_id content metadata v].
Proof.
  intros Hdel Hok.
  pose proof (upload_cases env source_id content metadata st) as Hc.
  cbv zeta in Hc.
  destruct (embed_content env (S (calls st)) content) as [v|e];
    [|rewrite Hc in Hok; discriminate].
  exists v. split; [reflexivity|].
  destruct (insert_raises env (2 + calls st) _);
    [rewrite Hc in Hok; discriminate|].
  rewrite Hc. cbn [snd documents].
  rewrite rows_of_app, rows_of_after_purge_same, Hdel. cbn [app].
  unfold rows_of. cbn [filter]. now rewrite payload_has_key.
Qed.

Lemma upload_replaces_previous_version_witness :
  exists v,
    embed_content kb_ok 4 "Second version" = Ok v /\
    rows_of "cv_main"
      (documents
         (snd (upload_knowledge kb_ok "cv_main" "Second version"
                 [("type", VStr "resume")]
                 (snd (upload_knowledge kb_ok "cv_main" "First version"
                         [("type", VStr "resume")] empty_kb)))))
    = [payload_of "cv_main" "Second version" [("type", VStr "resume")] v].
Proof.
  apply (upload_replaces_previous_version kb_ok "cv_main" "Second version"
           [("type", VStr "resume")]
           (snd (upload_knowledge kb_ok "cv_main" "First version"
                   [("type", VStr "resume")] empty_kb))); reflexivity.
Defined.

(** X13. The upload is a delete followed by an insert, not a
    replacement in one step: when the purge went through and the
    embedding or the insert then fails, no row is left under the source
    id, the previous version included; and when the purge raised, the
    previous rows stay, beside the new one if the upload succeeds. *)
Theorem upload_failure_modes env source_id content metadata st :
  let r := upload_knowledge env source_id content metadata st in
  (delete_raises env (calls st) source_id = None ->
   fst r = false ->
   rows_of source_id (documents (snd r)) = []) /\
  (forall e,
     delete_raises env (calls st) source_id = Some e ->
     exists v,
       rows_of source_id (documents (snd r))
       = rows_of source_id (documents st)
         ++ (if fst r then [payload_of source_id content metadata v]
             else [])).
Proof.
  intros r. subst r.
  destruct (upload_documents env source_id content metadata st) as [v Hd].
  split.
  - intros Hdel Hf. rewrite Hd, Hf, app_nil_r.
    now rewrite rows_of_after_purge_same, Hdel.
  - intros e Hdel. exists v. rewrite Hd, rows_of_app.
    rewrite rows_of_after_purge_same, Hdel. f_equal.
    destruct (fst (upload_knowledge env source_id content metadata st));
      [|reflexivity].
    unfold rows_of. cbn [filter]. now rewrite payload_has_key.
Qed.

Lemma upload_failure_modes_witness :
  rows_of "cv_main"
    (documents
       (snd (upload_knowledge kb_embed_down "cv_main" "Second version"
               [("type", VStr "resume")]
               (snd (upload_knowledge kb_ok "cv_main" "First version"
                       [("type", VStr "resume")] empty_kb)))))
  = [].
Proof.
  apply (proj1 (upload_failure_modes kb_embed_down "cv_main" "Second version"
                  [("type", VStr "resume")]
                  (snd (upload_knowledge kb_ok "cv_main" "First version"
                          [("type", VStr "resume")] empty_kb))));
    reflexivity.
Defined.

End IngestionExtras.

Section LoopFacts.
Import Py Maintain KbObs.
Variable env : Env.

(** One upload, as the loops see it. *)
Lemma upload_step source_id content metadata st :
  exists added,
    log (snd (upload_knowledge env source_id content metadata st))
    = log st ++ added /\
    processed added = [source_id] /\
    successes added
    = (if fst (upload_knowledge env source_id content metadata st)
       then 1 else 0) /\
    length (documents (snd (upload_knowledge env source_id content metadata st)))
    <= length (documents st) + successes added.
Proof.
  destruct (upload_log env source_id content metadata st)
    as (added & Hl & Hp & Hs).
  exists added. repeat (split; [assumption|]).
  destruct (upload_documents env source_id content metadata st) as [v ->].
  rewrite length_app, Hs.
  pose proof (after_purge_length env source_id st).
  destruct (fst (upload_knowledge env source_id content metadata st));
    cbn [length]; lia.
Qed.

Lemma sync_repos_rows repos : forall synced st,
  exists added,
    log (snd (sync_repos env repos synced st)) = log st ++ added /\
    fst (sync_repos env repos synced st) = synced + successes added /\
    successes added <= length (filter (fun r => negb (fork r)) repos) /\
    length (documents (snd (sync_repos env repos synced st)))
    <= length (documents st) + successes added.
Proof.
  induction repos as [|repo repos IH]; intros synced st.
  - exists []. cbn. rewrite app_nil_r. repeat split; lia.
  - cbn [sync_repos filter]. destruct (fork repo); cbn [negb]; [apply IH|].
    unfold bind.
    destruct (upload_step (github_source_id repo) (github_content repo)
                (github_metadata repo) st) as (a1 & Hl1 & _ & Hs1 & Hd1).
    destruct (upload_knowledge env (github_source_id repo)
                (github_content repo) (github_metadata repo) st)
      as [uploaded st1].
    cbn [fst snd] in *.
    destruct (IH (if uploaded then S synced else synced) st1)
      as (a2 & Hl2 & Hr2 & Hb2 & Hd2).
    exists (a1 ++ a2). rewrite Hl2, Hl1, app_assoc, successes_app.
    cbn [length]. repeat split; try reflexivity.
    + rewrite Hr2, Hs1. destruct uploaded; lia.
    + rewrite Hs1. destruct uploaded; lia.
    + lia.
Qed.

End LoopFacts.

Section SourceFacts.
Import Py Maintain KbObs.
Variable src : Sources.



End SourceFacts.

Section SyncOutcomes.
Import Py Maintain KbObs.
Variable src : Sources.





End SyncOutcomes.

Section GithubFailure.
Import Py Maintain KbObs.


End GithubFailure.

Section SourceExtras.
Import Py Maintain KbObs Scenarios.

(** X14. A GitHub sync whose listing request fails returns 0 after that
    one outside call, with the table untouched and no upload announced.
    When the listing arrives, the number returned is at most the number
    of repositories that are not forks, and the table has gained at most
    that many rows. *)
Theorem github_sync_accounting env st :
  match github_repos env (calls st) with
  | Raise e =>
      sync_github env st
      = (0, mkState (documents st) (S (calls st))
              (log st ++ [SyncingGithub; GithubApiError e]))
  | Ok repos =>
      fst (sync_github env st)
      <= length (filter (fun repo => negb (fork repo)) repos) /\
      length (documents (snd (sync_github env st)))
      <= length (documents st) + fst (sync_github env st)
  end.
Proof.
  unfold sync_github, bind, print, next_call, ret. cbn [fst snd calls].
  destruct (github_repos env (calls st)) as [repos|e].
  - set (st0 := mkState _ _ _).
    destruct (sync_repos_rows env repos 0 st0) as (added & _ & Hr & Hb & Hd).
    destruct (sync_repos env repos 0 st0) as [synced st1].
    cbn [fst snd documents] in *. subst st0. cbn [documents] in Hd. lia.
  - cbn [fst snd documents calls log]. now rewrite <- app_assoc.
Qed.




End SourceExtras.

Section AllSources.
Import Py Maintain KbObs.
Variable src : Sources.


End AllSources.

Section MoreSourceExtras.
Import Py Maintain KbObs Scenarios.


End MoreSourceExtras.

Section CommandExtras.
Import Py Maintain KbObs Scenarios.

Lemma upper_empty s : String.eqb (upper s) "" = String.eqb s "".
Proof. now destruct s. Qed.

(** X18. [handle_sync] takes a missing or empty source for [all].  On a
    source of ASCII text it does not see the case of the letters, and a
    source that is then none of [all], [github], [kaggle], [blog] only
    gets the unknown-source line printed: no request is made and the
    table is untouched. *)
Theorem handle_sync_dispatch src source run :
  handle_sync src None run = handle_sync src (Some "all") run /\
  handle_sync src (Some "") run = handle_sync src (Some "all") run /\
  (isascii source = true ->
   handle_sync src (Some (upper source)) run
   = handle_sync src (Some source) run) /\
  (isascii source = true ->
   source <> "" ->
   ~ In (lower source) known_sources ->
   handle_sync src (Some source) run
   = (tt, mkRun (kb run) (notes run ++ [UnknownSource (lower source)]))).
Proof.
  split; [reflexivity | split; [reflexivity | split]].
  - intros _. unfold handle_sync. now rewrite upper_empty, lower_upper.
  - intros _ Hne Hunknown. unfold handle_sync. cbv zeta.
    apply String.eqb_neq in Hne. rewrite Hne. cbv iota.
    assert (Hk : forall k, In k known_sources ->
                   String.eqb (lower source) k = false).
    { intros k Hin. apply String.eqb_neq. intros E. apply Hunknown.
      now rewrite E. }
    rewrite !Hk by (simpl; tauto). reflexivity.
Qed.

Lemma handle_sync_dispatch_witness :
  handle_sync sources_ok (Some "GITHUB") empty_run
  = handle_sync sources_ok (Some "github") empty_run /\
  handle_sync sources_ok (Some "Travis") empty_run
  = (tt, mkRun (kb empty_run)
           (notes empty_run ++ [UnknownSource (lower "Travis")])).
Proof.
  split.
  - exact (proj1 (proj2 (proj2 (handle_sync_dispatch sources_ok "github"
                                  empty_run))) eq_refl).
  - refine (proj2 (proj2 (proj2 (handle_sync_dispatch sources_ok "Travis"
                                   empty_run))) eq_refl _ _).
    + discriminate.
    + vm_compute. intuition discriminate.
Defined.

(** X19. For a project whose name is ASCII text: any row the
    [add-project] command adds to the table carries the project's text,
    its name and url, type [project], and the source id [project_]
    followed by the name in lower case with spaces replaced by
    underscores; and that source id is the [ref] under which the prompt
    builder cites a retrieved document of type [project] with that
    name. *)
Theorem added_project_is_cited_by_its_key project :
  isascii project = true ->
  (forall src desc stack url run r,
     In r (documents
             (kb (snd (handle_project_add src project desc stack url run)))) ->
     ~ In r (documents (kb run)) ->
     row_content r
     = ("Project Name: " ++ project ++ ". Description: " ++ desc
        ++ ". Tech Stack: " ++ stack ++ ".")%string /\
     row_metadata r
     = [("type", VStr "project"); ("name", VStr project);
        ("url", VStr url);
        ("source_id",
         VStr ("project_" ++ replace_char " " "_" (lower project))%string)]) /\
  (forall docs lang doc m,
     In doc docs ->
     Main.doc_metadata doc = Some m ->
     dict_get "type" m = Some "project" ->
     dict_get "name" m = Some project ->
     exists c,
       In c (snd (Main.build_system_prompt docs lang)) /\
       Main.cit_ref c
       = ("project_" ++ replace_char " " "_" (lower project))%string /\
       Main.cit_name c = project).
Proof.
  intros _. split.
  - intros src desc stack url run r Hin Hnew.
    unfold handle_project_add, rbind, note, on_kb, rret in Hin.
    cbn [kb notes] in Hin.
    match type of Hin with
    | context [upload_knowledge ?e ?s ?c ?m ?st] =>
        destruct (upload_documents e s c m st) as [v Hd];
        destruct (upload_knowledge e s c m st) as [ok st1] eqn:Hu
    end.
    cbn [fst snd kb] in Hin, Hd. rewrite Hd in Hin.
    apply in_app_iff in Hin. destruct Hin as [Hin|Hin].
    + exfalso. apply Hnew. now apply (after_purge_incl _ _ _ r) in Hin.
    + destruct ok; [|destruct Hin]. destruct Hin as [<-|[]].
      split; reflexivity.
  - intros docs lang doc m Hin Hm Ht Hn.
    rewrite build_citations.
    exists (Main.mkCitation "project" project
              ("project_" ++ Main.slug project)
              (get_default "url" "" m)).
    split; [|split; reflexivity].
    apply in_flat_map. exists doc. split; [assumption|].
    unfold Main.doc_citations, Main.doc_type_of, Main.metadata_of, get_default.
    rewrite Hm, Ht, Hn. cbn. now left.
Qed.

Lemma added_project_is_cited_by_its_key_witness :
  exists c,
    In c (snd (Main.build_system_prompt [project_doc] "en")) /\
    Main.cit_ref c = "project_my_app" /\
    Main.cit_name c = "My App".
Proof.
  refine (proj2 (added_project_is_cited_by_its_key "My App" eq_refl)
            [project_doc] "en" project_doc _ _ eq_refl eq_refl eq_refl).
  now left.
Defined.

End CommandExtras.

Section ViewAndLayout.
Import Py Main Obs Scenarios.

(** X20. For a store reached by any saves and clearings, the body of
    [GET /session/{id}] counts the messages it lists, at most
    [MAX_MESSAGES_PER_SESSION], and gives the [created] and [updated]
    stamps exactly when it lists at least one message: an unknown id
    yields no messages and no stamps. *)
Theorem session_view_consistent env ops sid :
  let view := get_session sid (run_ops env ops initial_state) in
  view_session_id view = sid /\
  message_count view = length (view_messages view) /\
  message_count view <= MAX_MESSAGES_PER_SESSION /\
  (view_created view = None <-> message_count view = 0) /\
  (view_updated view = None <-> message_count view = 0).
Proof.
  cbv zeta. destruct (run_ops_store_ok env ops) as (_ & _ & Hs).
  unfold get_session. cbn [view_session_id message_count view_messages
                             view_created view_updated].
  unfold get_session_history.
  destruct (dict_get sid (conversation_memory (run_ops env ops initial_state)))
    as [s|] eqn:E.
  - destruct (Hs sid s E) as (Hne & H1 & H20).
    apply String.eqb_neq in Hne. rewrite Hne. cbn [option_map].
    repeat split; try reflexivity; try assumption;
      try discriminate; intros; lia.
  - cbn [option_map]. destruct (String.eqb sid ""); cbn [length];
      repeat split; try reflexivity; unfold MAX_MESSAGES_PER_SESSION; lia.
Qed.

Lemma context_loop_text docs : forall i ctx cits,
  fst (context_loop i docs ctx cits)
  = (ctx ++ join ""
              (map (fun p => doc_block (fst p) (snd p))
                 (combine (seq i (length docs)) docs)))%string.
Proof.
  induction docs as [|doc docs IH]; intros i ctx cits.
  - cbn. now rewrite str_app_empty.
  - cbn [context_loop length seq combine map fst snd]. rewrite IH.
    rewrite str_app_assoc. f_equal.
    destruct docs as [|doc' docs]; [cbn; now rewrite str_app_empty|].
    reflexivity.
Qed.

(** X21. The prompt is the identity text, then one block per retrieved
    document in retrieval order, numbered from 1, then the response
    rules, the language instruction if any, and a line break; nothing
    else of the documents enters it. *)
Theorem prompt_layout docs lang :
  fst (build_system_prompt docs lang)
  = (PERSONA_IDENTITY
     ++ join ""
          (map (fun p =>
                  nl ++ "--- DOCUMENT " ++ str_of_nat (fst p + 1) ++ " ("
                  ++ upper (get_default "type" "unknown"
                              (match doc_metadata (snd p) with
                               | Some m => m
                               | None => []
                               end))
                  ++ ") ---" ++ nl
                  ++ match doc_content (snd p) with
                     | Some c => c
                     | None => ""
                     end
                  ++ nl)
             (combine (seq 0 (length docs)) docs))
     ++ PERSONA_RULES ++ language_instruction lang ++ nl)%string.
Proof.
  rewrite build_prompt_text. unfold context_text_of.
  now rewrite context_loop_text.
Qed.

End ViewAndLayout.
